(** * Moodbot: a sentiment moderation pipeline for a Telegram group

    Shallow embedding of [moodbot.py] and the properties of its
    ingestion handler, feedback handler, record store, daily aggregate
    and text normalisation.

    Conventions of the embedding:
    - a Python [str] is the list of its Unicode code points ([list Z]);
      [bytes] is the list of its octets;
    - a Python [float] is an IEEE 754 binary64 value ([spec_float] with
      precision 53 and maximal exponent 1024);
    - the SQLite table and the [messages_data] dictionary are finite maps;
    - the handlers are written in a state-and-exception monad over the
      table, the dictionary and the list of calls issued to the Telegram
      client;
    - the libraries the program calls (Hazm, emoji, the transformers
      pipeline, the Unicode tables behind [\w] and [\d]) are collected in
      the record [externals]. *)

From Stdlib Require Import ZArith List String Ascii Bool Lia.
From Stdlib Require Import Floats.SpecFloat.
From stdpp Require Import gmap list sorting.

Open Scope Z_scope.

(** ** Python strings *)

Module PyStr.

Definition str := list Z.

(** Code point of an ASCII character, and the [str] of an ASCII literal. *)
Definition ch (a : ascii) : Z := Z.of_N (N_of_ascii a).

Definition py (s : string) : str := map ch (list_ascii_of_string s).

Fixpoint startswith (p s : str) : bool :=
  match p, s with
  | [], _ => true
  | _ :: _, [] => false
  | a :: p', b :: s' => (a =? b) && startswith p' s'
  end.

(** [p in s] *)
Fixpoint contains (p s : str) : bool :=
  startswith p s ||
  match s with
  | [] => false
  | _ :: s' => contains p s'
  end.

(** First occurrence of a non-empty separator: the text before it and
    the text after it. *)
Fixpoint partition (sep s : str) : option (str * str) :=
  if startswith sep s then Some ([], drop (length sep) s)
  else match s with
       | [] => None
       | c :: s' =>
           match partition sep s' with
           | Some (a, b) => Some (c :: a, b)
           | None => None
           end
       end.

(** [s.split(sep, 1)] for a non-empty [sep]. *)
Definition split1 (sep s : str) : list str :=
  match partition sep s with
  | Some (a, b) => [a; b]
  | None => [s]
  end.

(** Unicode white space, as [str.isspace], [str.strip] and the regular
    expression class [\s] on [str] patterns see it. *)
Definition isspace (c : Z) : bool :=
  ((9 <=? c) && (c <=? 13)) || ((28 <=? c) && (c <=? 32)) ||
  (c =? 133) || (c =? 160) || (c =? 5760) ||
  ((8192 <=? c) && (c <=? 8202)) ||
  (c =? 8232) || (c =? 8233) || (c =? 8239) || (c =? 8287) || (c =? 12288).

Fixpoint lstrip (s : str) : str :=
  match s with
  | c :: s' => if isspace c then lstrip s' else s
  | [] => []
  end.

Definition rstrip (s : str) : str := rev (lstrip (rev s)).

(** [s.strip()] *)
Definition strip (s : str) : str := rstrip (lstrip s).

End PyStr.
Export PyStr.

(** ** Regular expressions

    The patterns of the program are alternations of sequences of
    character classes, each taken once or with a greedy [+].  Matching
    backtracks as Python's engine does: a [+] first takes as many
    characters as it can and gives them back one at a time while the rest
    of the sequence fails; alternatives are tried from left to right. *)

Module Re.

Inductive item :=
| One (p : Z -> bool)
| Many (p : Z -> bool).

Definition branch := list item.
Definition regex := list branch.

(** [many p k s]: length of the match of [p+] followed by [k] at the
    start of [s]. *)
Fixpoint many (p : Z -> bool) (k : str -> option nat) (s : str) : option nat :=
  match s with
  | c :: s' =>
      if p c then
        match many p k s' with
        | Some n => Some (S n)
        | None => S <$> k s'
        end
      else None
  | [] => None
  end.

Fixpoint match_branch (b : branch) (s : str) : option nat :=
  match b with
  | [] => Some O
  | One p :: b' =>
      match s with
      | c :: s' => if p c then S <$> match_branch b' s' else None
      | [] => None
      end
  | Many p :: b' => many p (match_branch b') s
  end.

(** Length of the match of the pattern at the start of [s]. *)
Fixpoint match_regex (r : regex) (s : str) : option nat :=
  match r with
  | [] => None
  | b :: r' =>
      match match_branch b s with
      | Some n => Some n
      | None => match_regex r' s
      end
  end.

(** [re.sub(r, repl, s)] for a pattern without empty matches and a
    replacement without group references: the leftmost matches, none
    overlapping, are replaced.  [skip] counts the characters of the
    current match still to be dropped. *)
Fixpoint sub_from (r : regex) (repl : str) (skip : nat) (s : str) : str :=
  match s with
  | [] => []
  | c :: s' =>
      match skip with
      | S k => sub_from r repl k s'
      | O =>
          match match_regex r s with
          | Some (S k) => repl ++ sub_from r repl k s'
          | _ => c :: sub_from r repl O s'
          end
      end
  end.

Definition sub (r : regex) (repl s : str) : str := sub_from r repl O s.

Definition lit (a : ascii) : Z -> bool := Z.eqb (ch a).

(** A literal ASCII word. *)
Definition lits (s : string) : branch :=
  map (fun a => One (lit a)) (list_ascii_of_string s).

(** [[a-zA-Z]] *)
Definition latin (c : Z) : bool :=
  ((97 <=? c) && (c <=? 122)) || ((65 <=? c) && (c <=? 90)).

(** [[؀-ۿ]] *)
Definition arabic_block (c : Z) : bool := (1536 <=? c) && (c <=? 1791).

(** [[^؀-ۿ\s]] *)
Definition not_arabic_nor_space (c : Z) : bool :=
  negb (arabic_block c || isspace c).

(** [\S] *)
Definition nonspace (c : Z) : bool := negb (isspace c).

End Re.

(** ** Floats *)

Module F64.

Definition float := spec_float.

Definition prec : Z := 53.
Definition emax : Z := 1024.

(** [float(n)] *)
Definition of_int (n : Z) : float := binary_normalize prec emax n 0 false.

Definition mul : float -> float -> float := SFmul prec emax.
Definition div : float -> float -> float := SFdiv prec emax.

(** [x > y] *)
Definition gt (x y : float) : bool := SFltb y x.

(** The literal [0.6]: the double nearest to 6/10,
    5404319552844595 / 2^53. *)
Definition lit_0_6 : float := S754_finite false 5404319552844595 (-53).

(** The literal [0.0]. *)
Definition lit_0_0 : float := S754_zero false.

End F64.

(** ** The libraries the program calls *)

Record externals := {
  (** [\d] on [str] patterns: Unicode category Nd. *)
  uni_decimal : Z -> bool;
  (** [\w] on [str] patterns: [str.isalnum] or the underscore. *)
  uni_word : Z -> bool;
  (** [emoji.replace_emoji(text, replace="")] *)
  replace_emoji : str -> str;
  (** [hazm.Normalizer().normalize] *)
  hazm_normalize : str -> str;
  (** The transformers pipeline: it raises, or returns a list of
      (label, score) results. *)
  sentiment_pipeline : str -> option (list (str * F64.float));
}.

(** What the Unicode database says on the two ranges the proofs look at:
    ASCII and the Arabic block. *)
Definition ascii_word (c : Z) : bool :=
  ((48 <=? c) && (c <=? 57)) || Re.latin c || (c =? 95).

Definition ascii_digit (c : Z) : bool := (48 <=? c) && (c <=? 57).

Definition arabic_digit (c : Z) : bool :=
  ((1632 <=? c) && (c <=? 1641)) || ((1776 <=? c) && (c <=? 1785)).

Record unicode_tables (X : externals) : Prop := {
  word_ascii : forall c, 0 <= c < 128 -> uni_word X c = ascii_word c;
  decimal_ascii : forall c, 0 <= c < 128 -> uni_decimal X c = ascii_digit c;
  decimal_arabic : forall c, 1536 <= c <= 1791 -> uni_decimal X c = arabic_digit c;
  decimal_not_space : forall c, isspace c = true -> uni_decimal X c = false;
}.

(** ** Text normalisation *)

Section Preprocess.

Variable X : externals.

Definition url_re : Re.regex :=
  [ Re.lits "http" ++ [Re.Many Re.nonspace];
    Re.lits "www." ++ [Re.Many Re.nonspace] ].
Definition mention_re : Re.regex := [ [Re.One (Re.lit "@"); Re.Many (uni_word X)] ].
Definition hashtag_re : Re.regex := [ [Re.One (Re.lit "#"); Re.Many (uni_word X)] ].
Definition latin_re : Re.regex := [ [Re.One Re.latin] ].
Definition foreign_re : Re.regex := [ [Re.One Re.not_arabic_nor_space] ].
Definition spaces_re : Re.regex := [ [Re.Many isspace] ].
Definition digits_re : Re.regex := [ [Re.Many (uni_decimal X)] ].

Definition preprocess_text (text : str) : str :=
  let text := Re.sub url_re [] text in
  let text := Re.sub mention_re [] text in
  let text := Re.sub hashtag_re [] text in
  let text := replace_emoji X text in
  let text := Re.sub latin_re [] text in
  let text := Re.sub foreign_re [] text in
  let text := strip (Re.sub spaces_re (py " ") text) in
  let text := hazm_normalize X text in
  let text := Re.sub digits_re [] text in
  text.

(** The statements of [preprocess_text], one by one. *)
Definition strip_urls (text : str) : str := Re.sub url_re [] text.
Definition strip_mentions (text : str) : str := Re.sub mention_re [] text.
Definition strip_hashtags (text : str) : str := Re.sub hashtag_re [] text.
Definition strip_latin (text : str) : str := Re.sub latin_re [] text.
Definition strip_foreign (text : str) : str := Re.sub foreign_re [] text.
Definition collapse_spaces (text : str) : str := strip (Re.sub spaces_re (py " ") text).
Definition strip_digits (text : str) : str := Re.sub digits_re [] text.

End Preprocess.

(** ** UTF-8 *)

Module Utf8.

Definition bytes := list Z.

Definition continuation (b : Z) : bool := (128 <=? b) && (b <=? 191).

Definition surrogate (c : Z) : bool := (55296 <=? c) && (c <=? 57343).

Definition encode_char (c : Z) : option bytes :=
  if (0 <=? c) && (c <? 128) then Some [c]
  else if (128 <=? c) && (c <? 2048) then
    Some [Z.lor 192 (Z.shiftr c 6); Z.lor 128 (Z.land c 63)]
  else if (2048 <=? c) && (c <? 65536) then
    if surrogate c then None
    else Some [Z.lor 224 (Z.shiftr c 12);
               Z.lor 128 (Z.land (Z.shiftr c 6) 63);
               Z.lor 128 (Z.land c 63)]
  else if (65536 <=? c) && (c <? 1114112) then
    Some [Z.lor 240 (Z.shiftr c 18);
          Z.lor 128 (Z.land (Z.shiftr c 12) 63);
          Z.lor 128 (Z.land (Z.shiftr c 6) 63);
          Z.lor 128 (Z.land c 63)]
  else None.

(** [s.encode("utf-8")]; [None] stands for [UnicodeEncodeError]. *)
Fixpoint encode (s : str) : option bytes :=
  match s with
  | [] => Some []
  | c :: s' =>
      match encode_char c, encode s' with
      | Some b, Some bs => Some (b ++ bs)
      | _, _ => None
      end
  end.

(** [b.decode("utf-8")], strict; [None] stands for
    [UnicodeDecodeError]. *)
Fixpoint decode (bs : bytes) : option str :=
  match bs with
  | [] => Some []
  | b0 :: r0 =>
      if (0 <=? b0) && (b0 <? 128) then cons b0 <$> decode r0
      else if (194 <=? b0) && (b0 <=? 223) then
        match r0 with
        | b1 :: r1 =>
            if continuation b1
            then cons (Z.lor (Z.shiftl (Z.land b0 31) 6) (Z.land b1 63)) <$> decode r1
            else None
        | _ => None
        end
      else if (224 <=? b0) && (b0 <=? 239) then
        match r0 with
        | b1 :: b2 :: r2 =>
            let c := Z.lor (Z.shiftl (Z.land b0 15) 12)
                       (Z.lor (Z.shiftl (Z.land b1 63) 6) (Z.land b2 63)) in
            if continuation b1 && continuation b2 && (2048 <=? c) && negb (surrogate c)
            then cons c <$> decode r2
            else None
        | _ => None
        end
      else if (240 <=? b0) && (b0 <=? 244) then
        match r0 with
        | b1 :: b2 :: b3 :: r3 =>
            let c := Z.lor (Z.shiftl (Z.land b0 7) 18)
                       (Z.lor (Z.shiftl (Z.land b1 63) 12)
                          (Z.lor (Z.shiftl (Z.land b2 63) 6) (Z.land b3 63))) in
            if continuation b1 && continuation b2 && continuation b3 &&
               (65536 <=? c) && (c <? 1114112)
            then cons c <$> decode r3
            else None
        | _ => None
        end
      else None
  end.

End Utf8.

(** ** Identifiers: [str(uuid.uuid4())] *)

Module Uuid.

(** [uuid.UUID(bytes=os.urandom(16), version=4).int], from the integer
    the sixteen random bytes spell: the variant bits are set to 10 and
    the version bits to 0100. *)
Definition uuid4_int (random : Z) : Z :=
  let int := random mod 2 ^ 128 in
  let int := Z.land int (Z.lnot (Z.shiftl 49152 48)) in
  let int := Z.lor int (Z.shiftl 32768 48) in
  let int := Z.land int (Z.lnot (Z.shiftl 61440 64)) in
  let int := Z.lor int (Z.shiftl 4 76) in
  int.

Definition hexdigit (d : Z) : Z := if d <? 10 then 48 + d else 87 + d.

(** The [n] low hexadecimal digits of [v], most significant first. *)
Fixpoint hex (n : nat) (v : Z) : str :=
  match n with
  | O => []
  | S k => hex k (Z.shiftr v 4) ++ [hexdigit (Z.land v 15)]
  end.

(** [str(u)]: the 32 digits grouped 8-4-4-4-12. *)
Definition to_str (int : Z) : str :=
  let h := hex 32 int in
  take 8 h ++ [45] ++ take 4 (drop 8 h) ++ [45] ++ take 4 (drop 12 h) ++ [45] ++
  take 4 (drop 16 h) ++ [45] ++ drop 20 h.

Definition uuid4_str (random : Z) : str := to_str (uuid4_int random).

(** The characters of an identifier: lower-case hexadecimal digits and
    the hyphen. *)
Definition uuid_char (c : Z) : bool :=
  ((48 <=? c) && (c <=? 57)) || ((97 <=? c) && (c <=? 102)) || (c =? 45).

Definition uuid_shaped (s : str) : bool :=
  (length s =? 36)%nat && forallb uuid_char s.

End Uuid.

(** ** State, exceptions and the outside world *)

Inductive exn :=
| OperationalError
| IntegrityError
| UnicodeDecodeError
| UnicodeEncodeError
| ValueError
| IndexError
| ZeroDivisionError
| AttributeError.

Inductive result (A : Type) :=
| Returned (a : A)
| Raised (e : exn).
Arguments Returned {A} a.
Arguments Raised {A} e.

(** A row of the table [sentiment_data], keyed by its [id]. *)
Record row := {
  message_text : str;
  sentiment : str;
  score : F64.float;
  label : option str;
  timestamp : str;
}.

Definition set_label (l : str) (r : row) : row :=
  {| message_text := message_text r; sentiment := sentiment r; score := score r;
     label := Some l; timestamp := timestamp r |}.

Inductive button :=
| Inline (text : str) (data : Utf8.bytes).

(** The three messages the program formats, with the values their
    f-strings interpolate. *)
Inductive text :=
| AlertText (negativity_percentage : F64.float) (message_text : str) (from : str)
| SummaryText (yesterday : str) (pos_count neu_count neg_count : Z)
| NoDataText (yesterday : str).

(** Calls issued to the Telegram client and to the plotting library. *)
Inductive call :=
| SendMessage (entity : Z) (message : text) (buttons : list button) (file : option str)
| Answer (message : str)
| DeleteMessage (msg : Z)
| SaveFig (path : str) (dates : list str) (positive neutral negative : list F64.float).

Record world := {
  db : gmap str row;
  messages_data : gmap str (list str);
  calls : list call;
}.

Definition with_db (d : gmap str row) (w : world) : world :=
  {| db := d; messages_data := messages_data w; calls := calls w |}.

Definition with_messages_data (m : gmap str (list str)) (w : world) : world :=
  {| db := db w; messages_data := m; calls := calls w |}.

Definition with_call (c : call) (w : world) : world :=
  {| db := db w; messages_data := messages_data w; calls := calls w ++ [c] |}.

(** What one run of a handler reads from outside the program: the clock,
    the random bytes behind [uuid.uuid4()] and whether SQLite can be
    reached. *)
Record env := {
  today : str;
  yesterday : str;
  current_timestamp : str;
  urandom : Z;
  db_up : bool;
}.

Record config := {
  admin_group_id : Z;
  group_id : Z;
}.

Record new_message := {
  chat_id : Z;
  is_group : bool;
  raw_text : str;
  chat_title : option str;
}.

Record callback_query := {
  data : Utf8.bytes;
  message : option Z;
}.

Definition M (A : Type) : Type := world -> result A * world.

Definition ret {A} (a : A) : M A := fun w => (Returned a, w).

Definition raise {A} (e : exn) : M A := fun w => (Raised e, w).

Definition bind {A B} (m : M A) (k : A -> M B) : M B :=
  fun w =>
    match m w with
    | (Returned a, w') => k a w'
    | (Raised e, w') => (Raised e, w')
    end.

Declare Scope py_scope.
Delimit Scope py_scope with py.
Notation "'let*' x ':=' m 'in' k" := (bind m (fun x => k))
  (at level 10, x name, m at level 100, k at level 200) : py_scope.
Notation "'do' m 'then' k" := (bind m (fun _ => k))
  (at level 10, m at level 100, k at level 200) : py_scope.
Open Scope py_scope.

(** An optional value whose absence raises [e]. *)
Definition or_raise {A} (e : exn) (o : option A) : M A :=
  match o with
  | Some a => ret a
  | None => raise e
  end.

Definition emit (c : call) : M unit := fun w => (Returned tt, with_call c w).

Definition read_messages_data : M (gmap str (list str)) :=
  fun w => (Returned (messages_data w), w).

(** [sum(1 for s in sentiments if s == v)] *)
Definition count_eq (v : str) (sentiments : list str) : Z :=
  Z.of_nat (length (filter (fun s => s = v) sentiments)).

Fixpoint str_leb (a b : str) : bool :=
  match a, b with
  | [], _ => true
  | _ :: _, [] => false
  | x :: a', y :: b' => (x <? y) || ((x =? y) && str_leb a' b')
  end.

(** [sorted(d.keys())] *)
Definition sorted_keys {V} (d : gmap str V) : list str :=
  merge_sort (fun a b => Is_true (str_leb a b)) (map_to_list d).*1.

(** [Button.inline(text, data)] of Telethon for a [str] payload. *)
Definition button_inline (text data : str) : M button :=
  let* bs := or_raise UnicodeEncodeError (Utf8.encode data) in
  if (64 <? Z.of_nat (length bs)) then raise ValueError
  else ret (Inline text bs).

Section Moodbot.

Variable X : externals.
Variable C : config.
Variable E : env.

(** *** The record store *)

Definition save_message_data (message_text sentiment : str) (score : F64.float)
    (label : option str) : M str :=
  fun w =>
    let unique_id := Uuid.uuid4_str (urandom E) in
    if negb (db_up E) then (Raised OperationalError, w)
    else
      match db w !! unique_id with
      | Some _ => (Raised IntegrityError, w)
      | None =>
          (Returned unique_id,
           with_db (<[unique_id :=
                      {| message_text := message_text; sentiment := sentiment;
                         score := score; label := label;
                         timestamp := current_timestamp E |}]> (db w)) w)
      end.

Definition update_feedback_in_dataset (unique_id label : str) : M unit :=
  fun w =>
    if negb (db_up E) then (Raised OperationalError, w)
    else (Returned tt, with_db (alter (set_label label) unique_id (db w)) w).

(** *** Classification *)

Definition analyze_sentiment (text : str) : str * F64.float :=
  match sentiment_pipeline X text with
  | Some ((label, score) :: _) =>
      if decide (label = py "HAPPY") then (py "POSITIVE", score)
      else if decide (label = py "SAD") then (py "NEGATIVE", score)
      else (py "NEUTRAL", score)
  | Some [] => (py "ERROR", F64.lit_0_0)
  | None => (py "ERROR", F64.lit_0_0)
  end.

(** *** The chart *)

(** [a / b] on integers (both below 2^53, so that their conversion to
    [float] is exact and the quotient is the correctly rounded one). *)
Definition truediv (a b : Z) : result F64.float :=
  if b =? 0 then Raised ZeroDivisionError
  else Returned (F64.div (F64.of_int a) (F64.of_int b)).

Definition percent (count total : Z) : result F64.float :=
  match truediv count total with
  | Returned q => Returned (F64.mul q (F64.of_int 100))
  | Raised e => Raised e
  end.

Fixpoint chart_series (daily_data : gmap str (list str)) (dates : list str)
  : result (list F64.float * list F64.float * list F64.float) :=
  match dates with
  | [] => Returned ([], [], [])
  | date :: dates' =>
      let sentiments := default [] (daily_data !! date) in
      let total := Z.of_nat (length sentiments) in
      let pos_count := count_eq (py "POSITIVE") sentiments in
      let neg_count := count_eq (py "NEGATIVE") sentiments in
      let neu_count := total - pos_count - neg_count in
      match percent pos_count total, percent neu_count total, percent neg_count total with
      | Returned p, Returned u, Returned n =>
          match chart_series daily_data dates' with
          | Returned (positive, neutral, negative) =>
              Returned (p :: positive, u :: neutral, n :: negative)
          | Raised e => Raised e
          end
      | Raised e, _, _ | _, Raised e, _ | _, _, Raised e => Raised e
      end
  end.

Definition generate_mood_chart (daily_data : gmap str (list str)) (save_path : str)
  : M unit :=
  let dates := sorted_keys daily_data in
  match chart_series daily_data dates with
  | Returned (positive, neutral, negative) =>
      emit (SaveFig save_path dates positive neutral negative)
  | Raised e => raise e
  end.

(** *** The ingestion handler *)

Definition record_sentiment (day sentiment : str) : M unit :=
  fun w =>
    (Returned tt,
     with_messages_data
       (<[day := default [] (messages_data w !! day) ++ [sentiment]]> (messages_data w)) w).

Definition truthy (s : str) : bool :=
  match s with
  | [] => false
  | _ :: _ => true
  end.

Definition mood_analyzer (event : new_message) : M unit :=
  if is_group event && truthy (raw_text event) then
    let message_text := preprocess_text X (raw_text event) in
    let '(sentiment, score) := analyze_sentiment message_text in
    let* unique_id := save_message_data message_text sentiment score None in
    do record_sentiment (today E) sentiment then
    if bool_decide (sentiment = py "NEGATIVE") && F64.gt score F64.lit_0_6 then
      let negativity_percentage := F64.mul score (F64.of_int 100) in
      let* negative := button_inline (py "Negative") (py "label_negative:" ++ unique_id) in
      let* not_negative :=
        button_inline (py "Not Negative") (py "label_not_negative:" ++ unique_id) in
      emit (SendMessage (admin_group_id C)
              (AlertText negativity_percentage message_text
                 (default (py "Unknown") (chat_title event)))
              [negative; not_negative] None)
    else ret tt
  else ret tt.

(** *** The feedback handler *)

Definition handle_feedback (event : callback_query) : M unit :=
  let* data := or_raise UnicodeDecodeError (Utf8.decode (data event)) in
  let label :=
    if contains (py "label_negative") data then py "negative" else py "not_negative" in
  let* unique_id := or_raise IndexError (split1 (py ":") data !! 1%nat) in
  do update_feedback_in_dataset unique_id label then
  do emit (Answer (py "Feedback recorded! Thank you.")) then
  let* msg := or_raise AttributeError (message event) in
  emit (DeleteMessage msg).

(** *** The daily summary *)

Definition daily_mood_summary : M unit :=
  let summary_file := py "mood_summary.png" in
  let* messages_data := read_messages_data in
  match messages_data !! yesterday E with
  | Some (s :: bucket) =>
      let sentiments := s :: bucket in
      do generate_mood_chart messages_data summary_file then
      let pos_count := count_eq (py "POSITIVE") sentiments in
      let neg_count := count_eq (py "NEGATIVE") sentiments in
      let neu_count := Z.of_nat (length sentiments) - pos_count - neg_count in
      emit (SendMessage (admin_group_id C)
              (SummaryText (yesterday E) pos_count neu_count neg_count)
              [] (Some summary_file))
  | _ => emit (SendMessage (admin_group_id C) (NoDataText (yesterday E)) [] None)
  end.

End Moodbot.

(** ** Sample data

    One behaviour of the libraries, to run the program on sample inputs:
    the Unicode tables cut down to ASCII and the Arabic digits, an emoji
    remover for the pictographic planes, a normaliser that leaves the
    sample texts as they are, and a classifier that answers SAD with
    score 0.92. *)

Definition score_0_92 : F64.float := S754_finite false 8286623314361713 (-53).

Definition sample_externals : externals := {|
  uni_decimal := fun c => ascii_digit c || arabic_digit c;
  uni_word := ascii_word;
  replace_emoji := List.filter (fun c => negb ((127744 <=? c) && (c <=? 129791)));
  hazm_normalize := fun text => text;
  sentiment_pipeline := fun _ => Some [(py "SAD", score_0_92)];
|}.

Definition failing_externals : externals := {|
  uni_decimal := uni_decimal sample_externals;
  uni_word := uni_word sample_externals;
  replace_emoji := replace_emoji sample_externals;
  hazm_normalize := hazm_normalize sample_externals;
  sentiment_pipeline := fun _ => None;
|}.

Definition sample_config : config := {| admin_group_id := -1001; group_id := -1002 |}.

Definition sample_env : env := {|
  today := py "2024-03-02";
  yesterday := py "2024-03-01";
  current_timestamp := py "2024-03-02 10:00:00";
  urandom := 7;
  db_up := true;
|}.

Definition offline_env : env := {|
  today := today sample_env;
  yesterday := yesterday sample_env;
  current_timestamp := current_timestamp sample_env;
  urandom := urandom sample_env;
  db_up := false;
|}.

Definition empty_world : world := {| db := ∅; messages_data := ∅; calls := [] |}.

(** The word salam. *)
Definition salam : str := [1587; 1604; 1575; 1605].

(** The scenario text: salam, a link, a mention, a hashtag, a smiling
    face and three digits. *)
Definition scenario_text : str :=
  salam ++ py " http://x.com @joe #tag " ++ [128522] ++ py "123".

(** Salam followed by a space and the Persian digit one. *)
Definition salam_one : str := salam ++ [32; 1777].

Definition monitored_event : new_message := {|
  chat_id := -1002;
  is_group := true;
  raw_text := salam;
  chat_title := Some (py "Family");
|}.

(** A message of a private chat. *)
Definition private_event : new_message := {|
  chat_id := 77;
  is_group := false;
  raw_text := salam;
  chat_title := None;
|}.

(** A message of a group that is not the monitored one. *)
Definition other_group_event : new_message := {|
  chat_id := -1003;
  is_group := true;
  raw_text := salam;
  chat_title := Some (py "Elsewhere");
|}.

(** An interaction whose payload has no colon, and one whose payload is
    not UTF-8. *)
Definition garbled_query : callback_query := {|
  data := py "garbage";
  message := Some 42;
|}.

Definition undecodable_query : callback_query := {|
  data := [255; 254];
  message := Some 42;
|}.

Definition scenario_bucket : list str :=
  [py "POSITIVE"; py "POSITIVE"; py "NEGATIVE"; py "ERROR"].

(** A world in which yesterday's bucket is the scenario bucket. *)
Definition yesterday_world : world := {|
  db := ∅;
  messages_data := <[yesterday sample_env := scenario_bucket]> ∅;
  calls := [];
|}.

(** The identifier drawn in the sample environment. *)
Definition drawn_id_of_sample : str := Uuid.uuid4_str (urandom sample_env).

(** A world whose table holds one row, already labelled. *)
Definition labelled_world : world := {|
  db := <[drawn_id_of_sample :=
            {| message_text := salam; sentiment := py "NEGATIVE"; score := score_0_92;
               label := Some (py "not_negative");
               timestamp := current_timestamp sample_env |}]> ∅;
  messages_data := <[today sample_env := [py "NEGATIVE"]]> ∅;
  calls := [];
|}.

(** A world in which yesterday has one sentiment and an earlier day an
    empty bucket. *)
Definition gap_world : world := {|
  db := ∅;
  messages_data :=
    <[py "2024-02-28" := []]> (<[yesterday sample_env := [py "POSITIVE"]]> ∅);
  calls := [];
|}.




(** ** Vocabulary of the statements *)

(** Length of the longest prefix in the class. *)
Fixpoint span (p : Z -> bool) (s : str) : nat :=
  match s with
  | c :: s' => if p c then S (span p s') else O
  | [] => O
  end.

(** A character of the target script, or the space U+0020. *)
Definition letter_or_space (c : Z) : bool := Re.arabic_block c || (c =? 32).

(** Every space is followed by a character that is not a space. *)
Fixpoint spaces_single (s : str) : bool :=
  match s with
  | [] => true
  | c :: t =>
      (if c =? 32 then match t with [] => false | b :: _ => negb (b =? 32) end else true)
      && spaces_single t
  end.

(** Target-script words separated by single spaces, with no space at
    either end. *)
Definition tidy (s : str) : bool :=
  forallb letter_or_space s && spaces_single s &&
  match s with
  | c :: _ => negb (c =? 32)
  | [] => true
  end.




(** What the ingestion handler works out for an event: the normalised
    text, its classification, the identifier it draws, the row it
    inserts and the alert it formats. *)
Definition event_text (X : externals) (ev : new_message) : str :=
  preprocess_text X (raw_text ev).

Definition event_sentiment (X : externals) (ev : new_message) : str :=
  fst (analyze_sentiment X (event_text X ev)).

Definition event_score (X : externals) (ev : new_message) : F64.float :=
  snd (analyze_sentiment X (event_text X ev)).

Definition drawn_id (E : env) : str := Uuid.uuid4_str (urandom E).

Definition event_row (X : externals) (E : env) (ev : new_message) : row :=
  {| message_text := event_text X ev; sentiment := event_sentiment X ev;
     score := event_score X ev; label := None; timestamp := current_timestamp E |}.

Definition event_alert (X : externals) (C : config) (E : env) (ev : new_message) : call :=
  SendMessage (admin_group_id C)
    (AlertText (F64.mul (event_score X ev) (F64.of_int 100)) (event_text X ev)
       (default (py "Unknown") (chat_title ev)))
    [Inline (py "Negative") (py "label_negative:" ++ drawn_id E);
     Inline (py "Not Negative") (py "label_not_negative:" ++ drawn_id E)]
    None.

(** The number a double stands for is above 6/10: for the finite double
    m * 2^e, six times the denominator is below ten times the numerator. *)
Definition above_six_tenths (x : F64.float) : Prop :=
  match x with
  | S754_finite false m e => 6 * 2 ^ Z.max (- e) 0 < 10 * Zpos m * 2 ^ Z.max e 0
  | S754_infinity false => True
  | _ => False
  end.


(** The handler's filter. *)
Definition accepted (ev : new_message) : bool := is_group ev && truthy (raw_text ev).

(** The handler's alert test. *)
Definition alarming (X : externals) (ev : new_message) : Prop :=
  event_sentiment X ev = py "NEGATIVE" /\ F64.gt (event_score X ev) F64.lit_0_6 = true.

(** [sum(1 for s in sentiments if s is neither POSITIVE nor NEGATIVE)] *)
Definition count_other (sentiments : list str) : Z :=
  Z.of_nat (length (filter (fun s => s <> py "POSITIVE" /\ s <> py "NEGATIVE") sentiments)).

(** Every run of white space replaced by one space: what
    [re.sub(r"\s+", " ", text)] computes.  [in_space] tells that the
    characters before belong to a run already replaced. *)
Fixpoint squeeze (in_space : bool) (s : str) : str :=
  match s with
  | [] => []
  | c :: s' =>
      if isspace c then (if in_space then squeeze true s' else 32 :: squeeze true s')
      else c :: squeeze false s'
  end.

(** No two spaces in a row. *)
Fixpoint no_double_space (s : str) : bool :=
  match s with
  | a :: (b :: _) as t => negb ((a =? 32) && (b =? 32)) && no_double_space t
  | _ => true
  end.

(** The first character, if any, is not a space. *)
Definition no_leading_space (s : str) : bool :=
  match s with
  | c :: _ => negb (c =? 32)
  | [] => true
  end.

(** The statements of [preprocess_text] before the Hazm normaliser. *)
Definition before_hazm (X : externals) (text : str) : str :=
  collapse_spaces (strip_foreign (strip_latin (replace_emoji X
    (strip_hashtags X (strip_mentions X (strip_urls text)))))).

(** The pattern matches at the start of the text. *)
Definition hit (r : Re.regex) (s : str) : Prop :=
  exists k, Re.match_regex r s = Some (S k).

(** The text is empty or starts with a character of the class. *)
Definition starts_in (D : Z -> bool) (s : str) : Prop :=
  match s with
  | [] => True
  | y :: _ => D y = true
  end.

(** The text starts with a link: [http] or [www.] and one more character
    that is not white space. *)
Definition url_hitb (s : str) : bool :=
  match s with
  | a :: b :: c :: d :: e :: _ =>
      (((a =? 104) && (b =? 116) && (c =? 116) && (d =? 112))
       || ((a =? 119) && (b =? 119) && (c =? 119) && (d =? 46)))
      && negb (isspace e)
  | _ => false
  end.

(** The pattern of a sign followed by word characters: [@\w+] and
    [#\w+]. *)
Definition tag_re (X : externals) (sign : ascii) : Re.regex :=
  [ [Re.One (Re.lit sign); Re.Many (uni_word X)] ].

(** The text starts with the sign [a] and a word character. *)
Definition tag_hitb (X : externals) (a : Z) (s : str) : bool :=
  match s with
  | b :: c :: _ => (b =? a) && uni_word X c
  | _ => false
  end.

(** The number of sentiments held by all the buckets together. *)
Definition counted (d : gmap str (list str)) : nat :=
  map_fold (fun _ bucket n => (length bucket + n)%nat) O d.

(** The calls a run adds to those issued before it. *)
Definition new_calls (before after : world) : list call :=
  drop (length (calls before)) (calls after).

(** Every bucket of the dictionary holds at least one sentiment, as
    [record_sentiment] leaves it. *)
Definition buckets_nonempty (d : gmap str (list str)) : Prop :=
  forall day, d !! day <> Some [].

(** Every key of the table has the shape of an identifier, as
    [save_message_data] leaves it. *)
Definition ids_shaped (d : gmap str row) : Prop :=
  forall id r, d !! id = Some r -> Uuid.uuid_shaped id = true.

(** The two invariants of the state the handlers share. *)
Definition healthy (w : world) : Prop :=
  ids_shaped (db w) /\ buckets_nonempty (messages_data w).

(** ** Regular expressions: substitution lemmas *)

Lemma many_span (p : Z -> bool) k (s : str) :
  (forall t, k t = Some O) ->
  Re.many p k s = match span p s with O => None | S n => Some (S n) end.
Proof.
  intros Hk. induction s as [|c s IH]; simpl; [reflexivity|].
  destruct (p c); [|reflexivity].
  rewrite IH. destruct (span p s); [|reflexivity].
  now rewrite Hk.
Qed.

Lemma span_take (p : Z -> bool) (s : str) : forallb p (take (span p s) s) = true.
Proof.
  induction s as [|c s IH]; simpl; [reflexivity|].
  destruct (p c) eqn:Hc; simpl; [|reflexivity].
  now rewrite Hc, IH.
Qed.

Lemma filter_drop_class (p : Z -> bool) (k : nat) (s : str) :
  forallb p (take k s) = true ->
  List.filter (fun c => negb (p c)) (drop k s) = List.filter (fun c => negb (p c)) s.
Proof.
  revert s. induction k as [|k IH]; intros [|c s]; simpl; try reflexivity.
  intros H. apply andb_prop in H as [Hc H]. rewrite Hc. simpl. now apply IH.
Qed.

(** Deleting the runs of a class deletes exactly its characters. *)
Lemma sub_from_many (p : Z -> bool) (k : nat) (s : str) :
  forallb p (take k s) = true ->
  Re.sub_from [[Re.Many p]] [] k s = List.filter (fun c => negb (p c)) (drop k s).
Proof.
  revert k. induction s as [|c s IH]; intros k Hk.
  - now destruct k.
  - destruct k as [|k].
    + cbn [Re.sub_from Re.match_regex Re.match_branch drop].
      rewrite (many_span p _ (c :: s)) by reflexivity.
      simpl span. simpl List.filter.
      destruct (p c) eqn:Hc; simpl.
      * rewrite IH by apply span_take.
        apply filter_drop_class, span_take.
      * now rewrite (IH O).
    + simpl in Hk. apply andb_prop in Hk as [_ Hk].
      simpl. now apply IH.
Qed.

Lemma sub_many (p : Z -> bool) (s : str) :
  Re.sub [[Re.Many p]] [] s = List.filter (fun c => negb (p c)) s.
Proof. unfold Re.sub. now rewrite sub_from_many. Qed.

Lemma sub_one (p : Z -> bool) (s : str) :
  Re.sub [[Re.One p]] [] s = List.filter (fun c => negb (p c)) s.
Proof.
  unfold Re.sub. induction s as [|c s IH]; simpl; [reflexivity|].
  destruct (p c); simpl; [destruct s|]; now rewrite ?IH.
Qed.

(** A pattern that matches at no character of the text leaves it as it is. *)
Lemma sub_no_match r repl (P : Z -> Prop) (s : str) :
  (forall c t, P c -> Re.match_regex r (c :: t) = None) ->
  Forall P s -> Re.sub r repl s = s.
Proof.
  intros Hr Hs. unfold Re.sub. induction Hs as [|c s Hc Hs IH]; simpl.
  - reflexivity.
  - destruct r as [|b r]; [now rewrite IH|].
    change (match Re.match_branch b (c :: s) with
            | Some n => Some n | None => Re.match_regex r (c :: s) end)
      with (Re.match_regex (b :: r) (c :: s)).
    rewrite (Hr c s Hc). now rewrite IH.
Qed.

(** ** Regular expressions: classes that agree on the text *)

Section ReExt.

Variable P : Z -> Prop.





End ReExt.

(** ** Character classes *)

Ltac zcases :=
  repeat match goal with
         | |- context [?a <=? ?b] => destruct (Z.leb_spec a b); try lia
         | |- context [?a <? ?b] => destruct (Z.ltb_spec a b); try lia
         | |- context [?a =? ?b] => destruct (Z.eqb_spec a b); try lia
         end;
  simpl; try reflexivity; try lia; try discriminate.

Lemma letter_not_space c : Re.arabic_block c = true -> isspace c = false.
Proof. unfold Re.arabic_block, isspace. zcases. Qed.

Lemma letter_or_space_cases c :
  letter_or_space c = true -> (1536 <= c <= 1791) \/ c = 32.
Proof. unfold letter_or_space, Re.arabic_block. zcases. Qed.

Lemma letter_or_space_not_latin c : letter_or_space c = true -> Re.latin c = false.
Proof. intros [H| ->]%letter_or_space_cases; unfold Re.latin; zcases. Qed.

Lemma letter_or_space_not_foreign c :
  letter_or_space c = true -> Re.not_arabic_nor_space c = false.
Proof.
  intros [H| ->]%letter_or_space_cases; unfold Re.not_arabic_nor_space, Re.arabic_block;
    [|reflexivity]. zcases.
Qed.

Lemma letter_or_space_isspace c :
  letter_or_space c = true -> isspace c = (c =? 32).
Proof.
  intros [H| ->]%letter_or_space_cases; [|reflexivity].
  rewrite letter_not_space by (unfold Re.arabic_block; zcases). zcases.
Qed.

(** ** Normalisation: texts it leaves as they are *)

Section PreprocessLemmas.

Variable X : externals.

Lemma url_re_no_match c t :
  letter_or_space c = true -> Re.match_regex url_re (c :: t) = None.
Proof.
  intros [H| ->]%letter_or_space_cases; [|reflexivity].
  cbn. unfold Re.lit, ch. cbn. zcases.
Qed.

Lemma mention_re_no_match c t :
  letter_or_space c = true -> Re.match_regex (mention_re X) (c :: t) = None.
Proof.
  intros [H| ->]%letter_or_space_cases; [|reflexivity].
  cbn. unfold Re.lit, ch. cbn. zcases.
Qed.

Lemma hashtag_re_no_match c t :
  letter_or_space c = true -> Re.match_regex (hashtag_re X) (c :: t) = None.
Proof.
  intros [H| ->]%letter_or_space_cases; [|reflexivity].
  cbn. unfold Re.lit, ch. cbn. zcases.
Qed.

Lemma filter_all_kept (p : Z -> bool) (s : str) :
  forallb (fun c => negb (p c)) s = true -> List.filter (fun c => negb (p c)) s = s.
Proof.
  induction s as [|c s IH]; simpl; [reflexivity|].
  intros [Hc Hs]%andb_prop. rewrite Hc. now rewrite IH.
Qed.

Lemma forallb_impl_bool (p q : Z -> bool) (s : str) :
  (forall c, p c = true -> q c = true) -> forallb p s = true -> forallb q s = true.
Proof.
  intros Hpq. induction s as [|c s IH]; simpl; [reflexivity|].
  intros [Hc Hs]%andb_prop. now rewrite (Hpq c Hc), IH.
Qed.

Lemma forallb_Forall_true (p : Z -> bool) (s : str) :
  forallb p s = true -> Forall (fun c => p c = true) s.
Proof.
  induction s as [|c s IH]; simpl; [constructor|].
  intros [Hc Hs]%andb_prop. constructor; auto.
Qed.

Lemma collapse_single (s : str) :
  forallb letter_or_space s = true -> spaces_single s = true ->
  Re.sub spaces_re (py " ") s = s.
Proof.
  unfold Re.sub. induction s as [|c s IH]; [reflexivity|].
  simpl forallb. simpl spaces_single.
  intros [Hc Hs]%andb_prop [Hn Hsp]%andb_prop.
  cbn [Re.sub_from spaces_re Re.match_regex Re.match_branch].
  rewrite (many_span isspace _ (c :: s)) by reflexivity.
  simpl span. rewrite (letter_or_space_isspace c Hc).
  destruct (c =? 32) eqn:Hc32.
  - destruct s as [|b s]; [discriminate|].
    simpl in Hs. apply andb_prop in Hs as [Hb Hs'].
    simpl span. rewrite (letter_or_space_isspace b Hb).
    apply negb_true_iff in Hn. rewrite Hn.
    apply Z.eqb_eq in Hc32. subst c.
    change (py " " ++ Re.sub_from spaces_re (py " ") 0 (b :: s) = 32 :: b :: s).
    rewrite IH; [reflexivity| |assumption].
    simpl. now rewrite Hb, Hs'.
  - now rewrite IH.
Qed.

Lemma lstrip_nonspace c (s : str) : isspace c = false -> lstrip (c :: s) = c :: s.
Proof. intros H. simpl. now rewrite H. Qed.

Lemma spaces_single_last (s : str) c :
  spaces_single (s ++ [c]) = true -> c <> 32.
Proof.
  induction s as [|a s IH]; simpl.
  - destruct (Z.eqb_spec c 32); [discriminate|auto].
  - intros [_ H]%andb_prop. auto.
Qed.

Lemma strip_tidy (s : str) : tidy s = true -> strip s = s.
Proof.
  unfold tidy. intros [[Hl Hs]%andb_prop Hh]%andb_prop.
  destruct s as [|c s]; [reflexivity|].
  unfold strip, rstrip.
  assert (Hc : isspace c = false).
  { simpl in Hl. apply andb_prop in Hl as [Hc _].
    rewrite (letter_or_space_isspace c Hc). now apply negb_true_iff. }
  rewrite (lstrip_nonspace c s Hc).
  destruct (exists_last (l := c :: s)) as (s' & z & Hz); [discriminate|].
  rewrite Hz in *. rewrite rev_app_distr. simpl rev at 2. simpl app.
  assert (Hzs : isspace z = false).
  { rewrite forallb_app in Hl. apply andb_prop in Hl as [_ Hl]. simpl in Hl.
    apply andb_prop in Hl as [Hl _].
    rewrite (letter_or_space_isspace z Hl).
    apply Z.eqb_neq. now apply (spaces_single_last s'). }
  rewrite (lstrip_nonspace z _ Hzs). simpl. now rewrite rev_involutive.
Qed.

Lemma collapse_spaces_tidy (s : str) : tidy s = true -> collapse_spaces s = s.
Proof.
  intros H. unfold collapse_spaces.
  pose proof H as [[Hl Hs]%andb_prop _]%andb_prop.
  rewrite (collapse_single s Hl Hs). now apply strip_tidy.
Qed.

Lemma strip_digits_no_digit (s : str) :
  forallb (fun c => negb (uni_decimal X c)) (strip_digits X s) = true.
Proof.
  unfold strip_digits, digits_re. rewrite sub_many.
  induction s as [|c s IH]; simpl; [reflexivity|].
  destruct (uni_decimal X c) eqn:Hc; simpl; [assumption|]. rewrite Hc. exact IH.
Qed.

Lemma preprocess_text_eq (text : str) :
  preprocess_text X text =
  strip_digits X (hazm_normalize X (collapse_spaces (strip_foreign (strip_latin
    (replace_emoji X (strip_hashtags X (strip_mentions X (strip_urls text)))))))).
Proof. reflexivity. Qed.

(** A tidy, digit-free text that the two libraries leave alone is a fixed
    point of the normalisation. *)
Lemma preprocess_text_fixed (r : str) :
  tidy r = true ->
  forallb (fun c => negb (uni_decimal X c)) r = true ->
  replace_emoji X r = r ->
  hazm_normalize X r = r ->
  preprocess_text X r = r.
Proof.
  intros Ht Hd He Hh. rewrite preprocess_text_eq.
  pose proof Ht as [[Hl _]%andb_prop _]%andb_prop.
  assert (HF : Forall (fun c => letter_or_space c = true) r).
  { now apply forallb_Forall_true. }
  unfold strip_urls. rewrite (sub_no_match url_re [] _ r url_re_no_match HF).
  unfold strip_mentions. rewrite (sub_no_match _ [] _ r mention_re_no_match HF).
  unfold strip_hashtags. rewrite (sub_no_match _ [] _ r hashtag_re_no_match HF).
  rewrite He.
  unfold strip_latin, latin_re. rewrite sub_one, filter_all_kept.
  2:{ apply (forallb_impl_bool letter_or_space); [|assumption].
      intros c Hc. now rewrite letter_or_space_not_latin. }
  unfold strip_foreign, foreign_re. rewrite sub_one, filter_all_kept.
  2:{ apply (forallb_impl_bool letter_or_space); [|assumption].
      intros c Hc. now rewrite letter_or_space_not_foreign. }
  rewrite (collapse_spaces_tidy r Ht), Hh.
  unfold strip_digits, digits_re. rewrite sub_many. now apply filter_all_kept.
Qed.

(** What digit stripping after white-space collapsing does to a text that
    ends in a digit, for any libraries that leave the texts involved as
    they are. *)
Lemma digit_gap :
  unicode_tables X ->
  replace_emoji X salam_one = salam_one ->
  hazm_normalize X salam_one = salam_one ->
  replace_emoji X (salam ++ [32]) = salam ++ [32] ->
  hazm_normalize X salam = salam ->
  preprocess_text X salam_one = salam ++ [32] /\
  preprocess_text X (salam ++ [32]) = salam.
Proof.
  intros HT He1 Hh1 He2 Hh2.
  assert (Hpre : forall t : str,
             forallb letter_or_space t = true ->
             strip_hashtags X (strip_mentions X (strip_urls t)) = t).
  { intros t Ht%forallb_Forall_true.
    unfold strip_urls. rewrite (sub_no_match url_re [] _ t url_re_no_match Ht).
    unfold strip_mentions. rewrite (sub_no_match _ [] _ t mention_re_no_match Ht).
    unfold strip_hashtags. now rewrite (sub_no_match _ [] _ t hashtag_re_no_match Ht). }
  assert (Hdec : forall a, In a salam_one ->
             negb (uni_decimal X a) = negb (arabic_digit a)).
  { intros a Ha. simpl in Ha.
    repeat destruct Ha as [<-|Ha]; try contradiction;
      first [ rewrite (decimal_arabic X HT) by lia
            | rewrite (decimal_not_space X HT) by reflexivity ]; reflexivity. }
  rewrite !preprocess_text_eq. split.
  - rewrite Hpre by reflexivity. rewrite He1.
    change (collapse_spaces (strip_foreign (strip_latin salam_one))) with salam_one.
    rewrite Hh1. unfold strip_digits, digits_re. rewrite sub_many.
    rewrite (filter_ext_in _ (fun c => negb (arabic_digit c))); [reflexivity|].
    intros a Ha. now apply Hdec.
  - rewrite Hpre by reflexivity. rewrite He2.
    change (collapse_spaces (strip_foreign (strip_latin (salam ++ [32])))) with salam.
    rewrite Hh2. unfold strip_digits, digits_re. rewrite sub_many.
    rewrite (filter_ext_in _ (fun c => negb (arabic_digit c))); [reflexivity|].
    intros a Ha. apply Hdec. simpl in *. tauto.
Qed.

End PreprocessLemmas.

Lemma sample_unicode_tables : unicode_tables sample_externals.
Proof.
  split; simpl; intros c Hc.
  - reflexivity.
  - unfold arabic_digit, ascii_digit. zcases.
  - unfold arabic_digit, ascii_digit. zcases.
  - unfold isspace in Hc. unfold arabic_digit, ascii_digit.
    destruct ((48 <=? c) && (c <=? 57)) eqn:H1; simpl.
    + apply andb_prop in H1 as [?%Z.leb_le ?%Z.leb_le]. revert Hc. zcases.
    + revert Hc. zcases.
Qed.

(** C8 (as amended). Applying the normalisation a second time changes
    nothing whenever the first result consists of target-script words
    separated by single spaces, with no space at either end, and the emoji
    remover and the Hazm normaliser leave that result as it is. *)
Theorem preprocess_text_idempotent_on_tidy (X : externals) (text : str) :
  let r := preprocess_text X text in
  tidy r = true ->
  replace_emoji X r = r ->
  hazm_normalize X r = r ->
  preprocess_text X (preprocess_text X text) = preprocess_text X text.
Proof.
  intros r Ht He Hh. apply preprocess_text_fixed; try assumption.
  unfold r. rewrite preprocess_text_eq. apply strip_digits_no_digit.
Qed.

Lemma preprocess_text_idempotent_on_tidy_witness :
  preprocess_text sample_externals (preprocess_text sample_externals scenario_text)
  = preprocess_text sample_externals scenario_text.
Proof.
  apply (preprocess_text_idempotent_on_tidy sample_externals scenario_text);
    vm_compute; reflexivity.
Defined.

(** C8 (as stated) fails: the Persian digit of "salam 1" is stripped after
    the white space was collapsed, which leaves a trailing space that a
    second application removes. *)
Lemma preprocess_text_not_idempotent :
  preprocess_text sample_externals salam_one = salam ++ [32] /\
  preprocess_text sample_externals (preprocess_text sample_externals salam_one) = salam /\
  preprocess_text sample_externals (preprocess_text sample_externals salam_one)
  <> preprocess_text sample_externals salam_one.
Proof.
  destruct (digit_gap sample_externals sample_unicode_tables) as [H1 H2];
    try reflexivity.
  rewrite H1, H2. repeat split. discriminate.
Qed.




Lemma strip_foreign_script (s : str) :
  forallb (fun c => Re.arabic_block c || isspace c) (strip_foreign s) = true.
Proof.
  unfold strip_foreign, foreign_re. rewrite sub_one.
  induction s as [|c s IH]; simpl; [reflexivity|].
  unfold Re.not_arabic_nor_space at 1.
  destruct (Re.arabic_block c || isspace c) eqn:Hc; simpl; [|assumption].
  rewrite Hc. exact IH.
Qed.

(** ** Identifiers *)

Lemma hex_length n v : length (Uuid.hex n v) = n.
Proof.
  revert v. induction n as [|n IH]; intros v; simpl; [reflexivity|].
  rewrite length_app, IH. simpl. lia.
Qed.

Lemma hexdigit_char d : 0 <= d < 16 -> Uuid.uuid_char (Uuid.hexdigit d) = true.
Proof. intros H. unfold Uuid.uuid_char, Uuid.hexdigit. zcases. Qed.

Lemma low_nibble v : 0 <= Z.land v 15 < 16.
Proof.
  change 15 with (Z.ones 4). rewrite Z.land_ones by lia.
  apply Z.mod_pos_bound. reflexivity.
Qed.

Lemma hex_chars n v : forallb Uuid.uuid_char (Uuid.hex n v) = true.
Proof.
  revert v. induction n as [|n IH]; intros v; simpl; [reflexivity|].
  rewrite forallb_app, IH. simpl.
  now rewrite (hexdigit_char _ (low_nibble v)).
Qed.

Lemma forallb_take (p : Z -> bool) (k : nat) (s : str) :
  forallb p s = true -> forallb p (take k s) = true.
Proof.
  revert s. induction k as [|k IH]; intros [|c s]; simpl; try reflexivity.
  intros [Hc Hs]%andb_prop. now rewrite Hc, IH.
Qed.

Lemma forallb_drop (p : Z -> bool) (k : nat) (s : str) :
  forallb p s = true -> forallb p (drop k s) = true.
Proof.
  revert s. induction k as [|k IH]; intros [|c s]; simpl; try reflexivity; auto.
  intros [Hc Hs]%andb_prop. now apply IH.
Qed.

Lemma grouped_shaped (h : str) :
  length h = 32%nat -> forallb Uuid.uuid_char h = true ->
  Uuid.uuid_shaped
    (take 8 h ++ [45] ++ take 4 (drop 8 h) ++ [45] ++ take 4 (drop 12 h) ++ [45] ++
     take 4 (drop 16 h) ++ [45] ++ drop 20 h) = true.
Proof.
  intros Hl Hc. unfold Uuid.uuid_shaped. apply andb_true_intro. split.
  - apply Nat.eqb_eq.
    rewrite !length_app, !length_take, !length_drop, Hl. cbn [length]. lia.
  - rewrite !forallb_app. cbn [forallb].
    rewrite !forallb_take, !forallb_drop by (try apply forallb_drop; assumption).
    reflexivity.
Qed.

(** What [save_message_data] draws is always an identifier of 36
    characters: hexadecimal digits and hyphens. *)
Lemma uuid4_str_shaped random : Uuid.uuid_shaped (Uuid.uuid4_str random) = true.
Proof.
  unfold Uuid.uuid4_str, Uuid.to_str.
  apply grouped_shaped; [apply hex_length | apply hex_chars].
Qed.

Lemma uuid_char_ascii c :
  Uuid.uuid_char c = true -> (0 <=? c) && (c <? 128) = true.
Proof. unfold Uuid.uuid_char. zcases. Qed.

Lemma uuid_shaped_ascii (id : str) :
  Uuid.uuid_shaped id = true ->
  forallb (fun c => (0 <=? c) && (c <? 128)) id = true.
Proof.
  intros [_ H]%andb_prop. revert H. apply forallb_impl_bool, uuid_char_ascii.
Qed.

Lemma uuid_shaped_length (id : str) :
  Uuid.uuid_shaped id = true -> length id = 36%nat.
Proof. intros [H _]%andb_prop. now apply Nat.eqb_eq. Qed.

(** ** UTF-8 on ASCII text *)

Lemma encode_ascii (s : str) :
  forallb (fun c => (0 <=? c) && (c <? 128)) s = true -> Utf8.encode s = Some s.
Proof.
  induction s as [|c s IH]; simpl; [reflexivity|].
  intros [Hc Hs]%andb_prop. unfold Utf8.encode_char. rewrite Hc, (IH Hs). reflexivity.
Qed.

Lemma decode_ascii (s : str) :
  forallb (fun c => (0 <=? c) && (c <? 128)) s = true -> Utf8.decode s = Some s.
Proof.
  induction s as [|c s IH]; simpl; [reflexivity|].
  intros [Hc Hs]%andb_prop. rewrite Hc, (IH Hs). reflexivity.
Qed.

(** ** Payloads *)

Lemma no_token_in_uuid (s : str) :
  forallb Uuid.uuid_char s = true -> contains (py "label_negative") s = false.
Proof.
  induction s as [|c s IH]; [reflexivity|].
  simpl forallb. intros [Hc Hs]%andb_prop.
  change (contains (py "label_negative") (c :: s))
    with (startswith (py "label_negative") (c :: s) || contains (py "label_negative") s).
  rewrite (IH Hs), orb_false_r.
  change (startswith (py "label_negative") (c :: s))
    with ((108 =? c) && startswith (py "abel_negative") s).
  revert Hc. unfold Uuid.uuid_char. zcases.
Qed.

Lemma payload_ascii (prefix id : str) :
  forallb (fun c => (0 <=? c) && (c <? 128)) prefix = true ->
  Uuid.uuid_shaped id = true ->
  forallb (fun c => (0 <=? c) && (c <? 128)) (prefix ++ id) = true.
Proof. intros Hp Hi. now rewrite forallb_app, Hp, uuid_shaped_ascii. Qed.

Lemma button_inline_payload (text prefix id : str) (w : world) :
  forallb (fun c => (0 <=? c) && (c <? 128)) prefix = true ->
  (length prefix <= 28)%nat ->
  Uuid.uuid_shaped id = true ->
  button_inline text (prefix ++ id) w = (Returned (Inline text (prefix ++ id)), w).
Proof.
  intros Hp Hl Hi. unfold button_inline, bind, or_raise.
  rewrite (encode_ascii _ (payload_ascii prefix id Hp Hi)). unfold ret.
  rewrite length_app, (uuid_shaped_length id Hi).
  destruct (Z.ltb_spec 64 (Z.of_nat (length prefix + 36))); [lia|reflexivity].
Qed.

(** ** The threshold *)

Lemma digits2_pos_bounds (m : positive) :
  2 ^ (Zpos (digits2_pos m) - 1) <= Zpos m < 2 ^ Zpos (digits2_pos m).
Proof.
  induction m as [p IH|p IH|]; cbn [digits2_pos].
  - rewrite Pos2Z.inj_succ, (Pos2Z.inj_xI p).
    replace (Z.succ (Zpos (digits2_pos p)) - 1) with (Z.succ (Zpos (digits2_pos p) - 1))
      by lia.
    rewrite !Z.pow_succ_r by lia. revert IH.
    generalize (2 ^ (Zpos (digits2_pos p) - 1)) (2 ^ Zpos (digits2_pos p)). lia.
  - rewrite Pos2Z.inj_succ, (Pos2Z.inj_xO p).
    replace (Z.succ (Zpos (digits2_pos p)) - 1) with (Z.succ (Zpos (digits2_pos p) - 1))
      by lia.
    rewrite !Z.pow_succ_r by lia. revert IH.
    generalize (2 ^ (Zpos (digits2_pos p) - 1)) (2 ^ Zpos (digits2_pos p)). lia.
  - cbn. lia.
Qed.

Lemma bounded_digits (m : positive) (e : Z) :
  bounded F64.prec F64.emax m e = true ->
  Zpos (digits2_pos m) <= 53 /\ (Zpos (digits2_pos m) = 53 \/ e = -1074).
Proof.
  unfold bounded, canonical_mantissa, fexp, emin, F64.prec, F64.emax.
  intros [H _]%andb_prop. apply Z.eqb_eq in H. lia.
Qed.

(** On doubles, [score > 0.6] holds exactly when the number the double
    stands for is above 6/10. *)
Lemma gt_lit_0_6_exact (x : F64.float) :
  valid_binary F64.prec F64.emax x = true ->
  F64.gt x F64.lit_0_6 = true <-> above_six_tenths x.
Proof.
  destruct x as [s|s| |s m e]; cbn [valid_binary above_six_tenths].
  - intros _. destruct s; cbn; split; (discriminate || contradiction).
  - intros _. destruct s; cbn; split; try discriminate; try contradiction; auto.
  - intros _. cbn. split; [discriminate|contradiction].
  - intros Hb. destruct (bounded_digits m e Hb) as [Hd53 Hd].
    pose proof (digits2_pos_bounds m) as Hm.
    destruct s; [cbn; split; [discriminate|contradiction]|].
    unfold F64.gt, F64.lit_0_6, SFltb, SFcompare.
    destruct (Z.compare_spec (-53) e) as [<-|Hlt|Hgt].
    + change (Z.max (- -53) 0) with 53. change (Z.max (-53) 0) with 0.
      change (2 ^ 53) with 9007199254740992. change (2 ^ 0) with 1.
      change (Pos.compare_cont Eq 5404319552844595 m)
        with (Z.compare 5404319552844595 (Zpos m)).
      clear Hb Hd53 Hd Hm.
      destruct (Z.compare_spec 5404319552844595 (Zpos m)) as [H|H|H].
      * split; [discriminate|]. intros H'. exfalso. lia.
      * split; [intros _|reflexivity]. lia.
      * split; [discriminate|]. intros H'. exfalso. lia.
    + split; [intros _|reflexivity].
      destruct Hd as [Hd|He]; [|lia]. rewrite Hd in Hm.
      change (2 ^ (53 - 1)) with 4503599627370496 in Hm.
      destruct (Z.le_gt_cases 0 e) as [He|He].
      * rewrite (Z.max_r (- e) 0), (Z.max_l e 0) by lia. change (2 ^ 0) with 1.
        assert (Hp : 1 <= 2 ^ e) by (apply (Z.pow_le_mono_r 2 0 e); lia).
        revert Hp. generalize (2 ^ e). nia.
      * rewrite (Z.max_l (- e) 0), (Z.max_r e 0) by lia. change (2 ^ 0) with 1.
        assert (Hp : 2 ^ (- e) <= 2 ^ 52) by (apply Z.pow_le_mono_r; lia).
        change (2 ^ 52) with 4503599627370496 in Hp.
        revert Hp. generalize (2 ^ (- e)). lia.
    + split; [discriminate|]. intros H. exfalso.
      rewrite (Z.max_l (- e) 0), (Z.max_r e 0) in H by lia. change (2 ^ 0) with 1 in H.
      assert (Hp : 2 ^ 54 <= 2 ^ (- e)) by (apply Z.pow_le_mono_r; lia).
      assert (Hm53 : Zpos m < 2 ^ 53).
      { eapply Z.lt_le_trans; [apply Hm|]. apply Z.pow_le_mono_r; lia. }
      change (2 ^ 54) with 18014398509481984 in Hp.
      change (2 ^ 53) with 9007199254740992 in Hm53.
      revert H Hp. generalize (2 ^ (- e)). lia.
Qed.

(** ** The ingestion handler *)

Section Ingestion.

Variable X : externals.
Variable C : config.
Variable E : env.

Lemma mood_analyzer_ignored (ev : new_message) (w : world) :
  accepted ev = false -> mood_analyzer X C E ev w = (Returned tt, w).
Proof. unfold accepted, mood_analyzer. now intros ->. Qed.

Lemma save_message_data_raises (t s : str) (sc : F64.float) (l : option str)
    (w : world) (e : exn) :
  fst (save_message_data E t s sc l w) = Raised e ->
  save_message_data E t s sc l w = (Raised e, w).
Proof.
  unfold save_message_data. destruct (db_up E); simpl.
  - destruct (db w !! Uuid.uuid4_str (urandom E)); simpl; [|discriminate].
    now intros [= ->].
  - now intros [= ->].
Qed.

Lemma mood_analyzer_insert_raises (ev : new_message) (w : world) (e : exn) :
  accepted ev = true ->
  fst (save_message_data E (event_text X ev) (event_sentiment X ev) (event_score X ev)
         None w) = Raised e ->
  mood_analyzer X C E ev w = (Raised e, w).
Proof.
  unfold accepted, mood_analyzer, event_sentiment, event_score, event_text.
  intros -> H.
  destruct (analyze_sentiment X (preprocess_text X (raw_text ev))) as [s sc].
  unfold bind at 1. simpl in H.
  now rewrite (save_message_data_raises _ _ _ _ _ _ H).
Qed.

Lemma save_message_data_fresh (t s : str) (sc : F64.float) (l : option str) (w : world) :
  db_up E = true -> db w !! drawn_id E = None ->
  save_message_data E t s sc l w =
  (Returned (drawn_id E),
   with_db (<[drawn_id E := {| message_text := t; sentiment := s; score := sc;
                               label := l; timestamp := current_timestamp E |}]> (db w)) w).
Proof.
  unfold save_message_data, drawn_id. now intros -> ->.
Qed.

(** A run on an accepted event whose row can be inserted. *)
Lemma mood_analyzer_ingested (ev : new_message) (w : world) :
  accepted ev = true -> db_up E = true -> db w !! drawn_id E = None ->
  mood_analyzer X C E ev w =
  (Returned tt,
   {| db := <[drawn_id E := event_row X E ev]> (db w);
      messages_data :=
        <[today E := default [] (messages_data w !! today E) ++ [event_sentiment X ev]]>
          (messages_data w);
      calls :=
        calls w ++
        (if bool_decide (event_sentiment X ev = py "NEGATIVE")
            && F64.gt (event_score X ev) F64.lit_0_6
         then [event_alert X C E ev] else []) |}).
Proof.
  unfold accepted, mood_analyzer, event_alert, event_row, event_sentiment, event_score,
    event_text.
  intros -> Hup Hfresh.
  destruct (analyze_sentiment X (preprocess_text X (raw_text ev))) as [s sc].
  cbn [fst snd].
  unfold bind at 1. rewrite (save_message_data_fresh _ _ _ _ _ Hup Hfresh).
  pose proof (uuid4_str_shaped (urandom E)) as Hid. fold (drawn_id E) in Hid.
  clear Hfresh. generalize dependent (drawn_id E). intros id Hid.
  unfold bind at 1. unfold record_sentiment.
  destruct (bool_decide (s = py "NEGATIVE") && F64.gt sc F64.lit_0_6).
  - unfold bind at 1.
    rewrite (button_inline_payload _ (py "label_negative:") id _ eq_refl)
      by (first [exact Hid | vm_compute; lia]).
    unfold bind at 1.
    rewrite (button_inline_payload _ (py "label_not_negative:") id _ eq_refl)
      by (first [exact Hid | vm_compute; lia]).
    reflexivity.
  - unfold ret, with_messages_data, with_db. cbn [db messages_data calls].
    now rewrite app_nil_r.
Qed.

Lemma new_calls_ingested (ev : new_message) (w : world) :
  accepted ev = true -> db_up E = true -> db w !! drawn_id E = None ->
  new_calls w (snd (mood_analyzer X C E ev w)) =
  if bool_decide (event_sentiment X ev = py "NEGATIVE")
     && F64.gt (event_score X ev) F64.lit_0_6
  then [event_alert X C E ev] else [].
Proof.
  intros Ha Hup Hfresh. rewrite (mood_analyzer_ingested ev w Ha Hup Hfresh).
  unfold new_calls. cbn [snd calls]. apply drop_app_length.
Qed.

Lemma alarming_test (ev : new_message) :
  alarming X ev <->
  bool_decide (event_sentiment X ev = py "NEGATIVE")
  && F64.gt (event_score X ev) F64.lit_0_6 = true.
Proof.
  unfold alarming. rewrite andb_true_iff, bool_decide_eq_true. reflexivity.
Qed.

(** The handler reads the kind of the chat and the text, never the
    identifier of the chat. *)
Lemma mood_analyzer_any_chat (ev : new_message) (other : Z) (w : world) :
  mood_analyzer X C E
    {| chat_id := other; is_group := is_group ev; raw_text := raw_text ev;
       chat_title := chat_title ev |} w
  = mood_analyzer X C E ev w.
Proof. reflexivity. Qed.

End Ingestion.

Lemma new_calls_same (w : world) : new_calls w w = [].
Proof. unfold new_calls. apply drop_all. Qed.

(** C1. For every ingested message (accepted by the filter, row inserted)
    the handler returns, and it sends the alert to the admin group exactly
    when the sentiment is NEGATIVE and the score is greater than 0.6; with
    a score equal to 0.6 nothing is sent.  The comparison is the one of
    doubles with the literal 0.6, and for a well-formed double it holds
    exactly when the number it stands for is above 6/10. *)
Theorem alert_iff_negative_above_threshold
    (X : externals) (C : config) (E : env) (ev : new_message) (w : world) :
  accepted ev = true -> db_up E = true -> db w !! drawn_id E = None ->
  let sent := new_calls w (snd (mood_analyzer X C E ev w)) in
  fst (mood_analyzer X C E ev w) = Returned tt /\
  (alarming X ev -> sent = [event_alert X C E ev]) /\
  (~ alarming X ev -> sent = []) /\
  (sent <> [] <-> alarming X ev) /\
  (event_score X ev = F64.lit_0_6 -> sent = []) /\
  (valid_binary F64.prec F64.emax (event_score X ev) = true ->
   (sent <> [] <->
    event_sentiment X ev = py "NEGATIVE" /\ above_six_tenths (event_score X ev))).
Proof.
  intros Ha Hup Hfresh sent.
  assert (Hs : sent = if bool_decide (event_sentiment X ev = py "NEGATIVE")
                         && F64.gt (event_score X ev) F64.lit_0_6
                      then [event_alert X C E ev] else [])
    by now apply new_calls_ingested.
  pose proof (alarming_test X ev) as Ht.
  assert (Hiff : sent <> [] <-> alarming X ev).
  { rewrite Ht, Hs.
    destruct (bool_decide (event_sentiment X ev = py "NEGATIVE")
              && F64.gt (event_score X ev) F64.lit_0_6);
      split; try discriminate; try reflexivity. intros H. now destruct H. }
  split; [now rewrite (mood_analyzer_ingested X C E ev w Ha Hup Hfresh)|].
  split; [intros Hal; apply Ht in Hal; now rewrite Hs, Hal|].
  split.
  { intros Hal. rewrite Hs.
    destruct (bool_decide (event_sentiment X ev = py "NEGATIVE")
              && F64.gt (event_score X ev) F64.lit_0_6); [|reflexivity].
    exfalso. apply Hal, Ht. reflexivity. }
  split; [exact Hiff|]. split.
  - intros Heq. rewrite Hs. unfold F64.gt at 1. rewrite Heq.
    change (SFltb F64.lit_0_6 F64.lit_0_6) with false. now rewrite andb_false_r.
  - intros Hv. rewrite Hiff. unfold alarming. now rewrite (gt_lit_0_6_exact _ Hv).
Qed.

Lemma alert_iff_negative_above_threshold_witness :
  new_calls empty_world
    (snd (mood_analyzer sample_externals sample_config sample_env monitored_event
            empty_world)) <> [] <->
  alarming sample_externals monitored_event.
Proof.
  apply (alert_iff_negative_above_threshold sample_externals sample_config sample_env
           monitored_event empty_world); vm_compute; reflexivity.
Defined.

(** C3. When the classifier raises, [analyze_sentiment] returns
    (ERROR, 0.0) and raises nothing; the handler then inserts the row
    with that outcome and appends ERROR to the bucket of the day. *)
Theorem classifier_failure_is_recorded (X : externals) (C : config) (E : env) :
  (forall text : str,
     sentiment_pipeline X text = None ->
     analyze_sentiment X text = (py "ERROR", F64.lit_0_0)) /\
  (forall (ev : new_message) (w : world),
     sentiment_pipeline X (event_text X ev) = None ->
     accepted ev = true -> db_up E = true -> db w !! drawn_id E = None ->
     let w' := snd (mood_analyzer X C E ev w) in
     fst (mood_analyzer X C E ev w) = Returned tt /\
     db w' !! drawn_id E =
       Some {| message_text := event_text X ev; sentiment := py "ERROR";
               score := F64.lit_0_0; label := None;
               timestamp := current_timestamp E |} /\
     messages_data w' !! today E =
       Some (default [] (messages_data w !! today E) ++ [py "ERROR"])).
Proof.
  assert (Hcl : forall text : str,
             sentiment_pipeline X text = None ->
             analyze_sentiment X text = (py "ERROR", F64.lit_0_0)).
  { intros text H. unfold analyze_sentiment. now rewrite H. }
  split; [exact Hcl|].
  intros ev w Hp Ha Hup Hfresh w'. subst w'.
  rewrite (mood_analyzer_ingested X C E ev w Ha Hup Hfresh). cbn [fst snd db messages_data].
  split; [reflexivity|].
  rewrite !lookup_insert_eq. unfold event_row, event_sentiment, event_score.
  now rewrite (Hcl _ Hp).
Qed.

Lemma classifier_failure_is_recorded_witness :
  messages_data
    (snd (mood_analyzer failing_externals sample_config sample_env monitored_event
            empty_world)) !! today sample_env
  = Some [py "ERROR"].
Proof.
  apply (classifier_failure_is_recorded failing_externals sample_config sample_env);
    vm_compute; reflexivity.
Defined.

(** C4 (the code departs from it). A message of a group other than the
    monitored one, with a text, goes through the whole pipeline: its row
    is inserted, the bucket of the day grows and the alert is sent.  The
    filter looks at [is_group] only; [group_id] is never read. *)
Theorem other_group_message_is_processed :
  chat_id other_group_event <> group_id sample_config /\
  accepted other_group_event = true /\
  let run := mood_analyzer sample_externals sample_config sample_env other_group_event
               empty_world in
  fst run = Returned tt /\
  db (snd run) !! drawn_id sample_env
    = Some (event_row sample_externals sample_env other_group_event) /\
  messages_data (snd run) !! today sample_env = Some [py "NEGATIVE"] /\
  calls (snd run)
    = [event_alert sample_externals sample_config sample_env other_group_event].
Proof.
  split; [discriminate|]. split; [reflexivity|].
  intros run. unfold run.
  rewrite (mood_analyzer_ingested sample_externals sample_config sample_env
             other_group_event empty_world)
    by (vm_compute; reflexivity).
  cbn [fst snd db messages_data calls].
  rewrite !lookup_insert_eq. repeat split.
Qed.

(** C5. When the insert of the row raises, the handler raises the same
    error at once: nothing is sent, whatever the sentiment and the score,
    and the world is as before. *)
Theorem no_alert_when_insert_fails
    (X : externals) (C : config) (E : env) (ev : new_message) (w : world) (e : exn) :
  accepted ev = true ->
  fst (save_message_data E (event_text X ev) (event_sentiment X ev) (event_score X ev)
         None w) = Raised e ->
  mood_analyzer X C E ev w = (Raised e, w) /\
  new_calls w (snd (mood_analyzer X C E ev w)) = [].
Proof.
  intros Ha Hf. rewrite (mood_analyzer_insert_raises X C E ev w e Ha Hf).
  split; [reflexivity|apply new_calls_same].
Qed.

Lemma no_alert_when_insert_fails_witness :
  alarming sample_externals monitored_event /\
  new_calls empty_world
    (snd (mood_analyzer sample_externals sample_config offline_env monitored_event
            empty_world)) = [].
Proof.
  split; [split; vm_compute; reflexivity|].
  apply (no_alert_when_insert_fails sample_externals sample_config offline_env
           monitored_event empty_world OperationalError); vm_compute; reflexivity.
Defined.

(** ** The daily summary *)

Lemma counts_partition (sentiments : list str) :
  Z.of_nat (length sentiments)
  = count_eq (py "POSITIVE") sentiments + count_other sentiments
    + count_eq (py "NEGATIVE") sentiments.
Proof.
  unfold count_eq, count_other.
  induction sentiments as [|s l IH]; [reflexivity|].
  rewrite !filter_cons. cbn [length].
  repeat case_decide; subst; cbn [length]; try lia; try discriminate;
    exfalso; tauto.
Qed.

Lemma count_error_le_other (sentiments : list str) :
  count_eq (py "ERROR") sentiments <= count_other sentiments.
Proof.
  unfold count_eq, count_other.
  induction sentiments as [|s l IH]; [reflexivity|].
  rewrite !filter_cons.
  repeat case_decide; subst; cbn [length]; try lia.
  exfalso. match goal with H : ~ (_ /\ _) |- _ => apply H end.
  split; discriminate.
Qed.

Lemma percent_returns (count total : Z) :
  total <> 0 -> exists f, percent count total = Returned f.
Proof.
  intros H. unfold percent, truediv.
  destruct (Z.eqb_spec total 0); [contradiction|]. eauto.
Qed.

Lemma chart_series_returns (daily_data : gmap str (list str)) (dates : list str) :
  (forall date, date ∈ dates -> exists s l, daily_data !! date = Some (s :: l)) ->
  exists r, chart_series daily_data dates = Returned r.
Proof.
  induction dates as [|date dates IH]; intros H; [simpl; eauto|].
  destruct (H date) as (s & l & Hd); [left|].
  destruct IH as [[[ps us] ns] Hr].
  { intros d Hin. apply H. now right. }
  cbn [chart_series]. rewrite Hd, Hr. cbn [default].
  assert (Hz : Z.of_nat (length (s :: l)) <> 0) by (cbn [length]; lia).
  destruct (percent_returns (count_eq (py "POSITIVE") (s :: l)) _ Hz) as [p Hp].
  destruct (percent_returns (count_eq (py "NEGATIVE") (s :: l)) _ Hz) as [n Hn].
  destruct (percent_returns
              (Z.of_nat (length (s :: l)) - count_eq (py "POSITIVE") (s :: l)
               - count_eq (py "NEGATIVE") (s :: l)) _ Hz) as [u Hu].
  cbv zeta. unfold id. rewrite Hp, Hn, Hu. eauto.
Qed.

Lemma sorted_keys_lookup (d : gmap str (list str)) (date : str) :
  date ∈ sorted_keys d -> exists v, d !! date = Some v.
Proof.
  unfold sorted_keys. rewrite merge_sort_Permutation.
  intros [[k v] [-> Hin]]%list_elem_of_fmap.
  apply elem_of_map_to_list in Hin. eauto.
Qed.

Lemma generate_mood_chart_returns (d : gmap str (list str)) (path : str) (w : world) :
  buckets_nonempty d ->
  exists positive neutral negative,
    generate_mood_chart d path w =
    (Returned tt, with_call (SaveFig path (sorted_keys d) positive neutral negative) w).
Proof.
  intros Hne. unfold generate_mood_chart.
  destruct (chart_series_returns d (sorted_keys d)) as [[[ps us] ns] Hr].
  { intros date [v Hv]%sorted_keys_lookup. destruct v as [|s l]; [|eauto].
    now destruct (Hne date). }
  rewrite Hr. unfold emit. eauto.
Qed.

(** [record_sentiment] keeps every bucket non-empty. *)
Lemma record_sentiment_nonempty (day s : str) (w : world) :
  buckets_nonempty (messages_data w) ->
  buckets_nonempty (messages_data (snd (record_sentiment day s w))).
Proof.
  intros H d. cbn [record_sentiment snd with_messages_data messages_data].
  destruct (decide (day = d)) as [->|Hd].
  - rewrite lookup_insert_eq. intros [= Heq]. now destruct (default [] _).
  - rewrite lookup_insert_ne by assumption. apply H.
Qed.

(** The points of the chart, day by day. *)
Lemma chart_series_points (d : gmap str (list str)) (dates : list str)
    (ps us ns : list F64.float) :
  chart_series d dates = Returned (ps, us, ns) ->
  forall (i : nat) (day : str), dates !! i = Some day ->
    let bucket := default [] (d !! day) in
    let n := Z.of_nat (length bucket) in
    let p := count_eq (py "POSITIVE") bucket in
    let g := count_eq (py "NEGATIVE") bucket in
    Returned <$> ps !! i = Some (percent p n) /\
    Returned <$> us !! i = Some (percent (n - p - g) n) /\
    Returned <$> ns !! i = Some (percent g n).
Proof.
  revert ps us ns. induction dates as [|date dates IH]; intros ps us ns Hr i day Hi.
  - destruct i; discriminate.
  - cbn [chart_series] in Hr. cbv zeta in Hr.
    destruct (percent (count_eq (py "POSITIVE") _) _) as [p|e] eqn:Hp; [|discriminate].
    destruct (percent (_ - _ - _) _) as [u|e] eqn:Hu; [|discriminate].
    destruct (percent (count_eq (py "NEGATIVE") _) _) as [n|e] eqn:Hn; [|discriminate].
    destruct (chart_series d dates) as [[[ps' us'] ns']|e]; [|discriminate].
    injection Hr as <- <- <-.
    destruct i as [|i].
    + injection Hi as <-. cbv zeta. rewrite Hp, Hu, Hn. repeat split.
    + apply (IH ps' us' ns' eq_refl i day Hi).
Qed.

Lemma chart_series_lengths (d : gmap str (list str)) (dates : list str)
    (ps us ns : list F64.float) :
  chart_series d dates = Returned (ps, us, ns) ->
  length ps = length dates /\ length us = length dates /\ length ns = length dates.
Proof.
  revert ps us ns. induction dates as [|date dates IH]; intros ps us ns.
  - cbn [chart_series]. now intros [= <- <- <-].
  - cbn [chart_series]. cbv zeta.
    destruct (percent _ _) as [p|e]; [|discriminate].
    destruct (percent _ _) as [u|e]; [|discriminate].
    destruct (percent _ _) as [n|e]; [|discriminate].
    destruct (chart_series d dates) as [[[ps' us'] ns']|e]; [|discriminate].
    intros [= <- <- <-]. destruct (IH ps' us' ns' eq_refl) as (H1 & H2 & H3).
    cbn [length]. now rewrite H1, H2, H3.
Qed.

Lemma sorted_keys_length (d : gmap str (list str)) : length (sorted_keys d) = size d.
Proof.
  unfold sorted_keys.
  rewrite (Permutation_length (merge_sort_Permutation _ _)).
  rewrite length_fmap. apply length_map_to_list.
Qed.

(** The three counts of a bucket. *)
Lemma day_counts (sentiments : list str) :
  let n := Z.of_nat (length sentiments) in
  let p := count_eq (py "POSITIVE") sentiments in
  let g := count_eq (py "NEGATIVE") sentiments in
  p + (n - p - g) + g = n /\
  n - p - g = count_other sentiments /\
  count_eq (py "ERROR") sentiments <= n - p - g.
Proof.
  cbv zeta.
  pose proof (counts_partition sentiments) as Hp.
  pose proof (count_error_le_other sentiments) as He.
  lia.
Qed.

(** C2. When no day has an empty bucket (as the handler leaves the
    dictionary) and yesterday has a bucket of n > 0 sentiments, the
    summary draws the chart and sends the report.  The report gives the
    count of POSITIVE, the count of NEGATIVE and, as neutral count, n less
    these two: the three sum to n, the neutral count is the number of
    entries that are neither POSITIVE nor NEGATIVE, and every ERROR entry
    is among them.  The chart has one point per day in each series, and
    for every day's bucket the three points are the shares
    [count / total * 100] of the same three counts of that bucket, the
    neutral one again being the residual.  For the bucket POSITIVE,
    POSITIVE, NEGATIVE, ERROR the report reads 2, 1, 1 and the points of
    that day are 50.0, 25.0 and 25.0. *)
Theorem neutral_count_is_residual
    (C : config) (E : env) (w : world) (sentiments : list str) :
  messages_data w !! yesterday E = Some sentiments ->
  sentiments <> [] ->
  buckets_nonempty (messages_data w) ->
  exists (positive neutral negative : list F64.float) (pos_count neu_count neg_count : Z),
    daily_mood_summary C E w =
      (Returned tt,
       with_call (SendMessage (admin_group_id C)
                    (SummaryText (yesterday E) pos_count neu_count neg_count) []
                    (Some (py "mood_summary.png")))
         (with_call (SaveFig (py "mood_summary.png") (sorted_keys (messages_data w))
                       positive neutral negative) w)) /\
    pos_count = count_eq (py "POSITIVE") sentiments /\
    neg_count = count_eq (py "NEGATIVE") sentiments /\
    neu_count = Z.of_nat (length sentiments) - pos_count - neg_count /\
    pos_count + neu_count + neg_count = Z.of_nat (length sentiments) /\
    neu_count = count_other sentiments /\
    count_eq (py "ERROR") sentiments <= neu_count /\
    length positive = size (messages_data w) /\
    length neutral = size (messages_data w) /\
    length negative = size (messages_data w) /\
    (forall (i : nat) (day : str),
       sorted_keys (messages_data w) !! i = Some day ->
       exists bucket : list str,
         messages_data w !! day = Some bucket /\
         let n := Z.of_nat (length bucket) in
         let p := count_eq (py "POSITIVE") bucket in
         let g := count_eq (py "NEGATIVE") bucket in
         let u := n - p - g in
         p + u + g = n /\
         u = count_other bucket /\
         count_eq (py "ERROR") bucket <= u /\
         Returned <$> positive !! i = Some (percent p n) /\
         Returned <$> neutral !! i = Some (percent u n) /\
         Returned <$> negative !! i = Some (percent g n)) /\
    (sentiments = scenario_bucket ->
     (pos_count, neu_count, neg_count) = (2, 1, 1) /\
     forall i : nat,
       sorted_keys (messages_data w) !! i = Some (yesterday E) ->
       positive !! i = Some (F64.of_int 50) /\
       neutral !! i = Some (F64.of_int 25) /\
       negative !! i = Some (F64.of_int 25)).
Proof.
  intros Hy Hne Hb.
  destruct sentiments as [|s bucket]; [contradiction|].
  assert (Hr : exists r, chart_series (messages_data w) (sorted_keys (messages_data w))
                         = Returned r).
  { apply chart_series_returns.
    intros date [v Hv]%sorted_keys_lookup. destruct v as [|s' l]; [|eauto].
    now destruct (Hb date). }
  destruct Hr as [[[ps us] ns] Hr].
  pose proof (chart_series_points _ _ _ _ _ Hr) as Hpts.
  destruct (chart_series_lengths _ _ _ _ _ Hr) as (L1 & L2 & L3).
  rewrite sorted_keys_length in L1, L2, L3.
  exists ps, us, ns.
  exists (count_eq (py "POSITIVE") (s :: bucket)).
  exists (Z.of_nat (length (s :: bucket)) - count_eq (py "POSITIVE") (s :: bucket)
          - count_eq (py "NEGATIVE") (s :: bucket)).
  exists (count_eq (py "NEGATIVE") (s :: bucket)).
  destruct (day_counts (s :: bucket)) as (D1 & D2 & D3).
  split.
  { unfold daily_mood_summary, bind, read_messages_data, generate_mood_chart.
    rewrite Hy, Hr. reflexivity. }
  do 3 (split; [reflexivity|]).
  do 3 (split; [assumption|]).
  do 3 (split; [assumption|]).
  split.
  { intros i day Hi.
    assert (Hin : day ∈ sorted_keys (messages_data w))
      by (eapply list_elem_of_lookup_2; exact Hi).
    apply sorted_keys_lookup in Hin as [b Hd]. exists b. split; [exact Hd|].
    destruct (day_counts b) as (B1 & B2 & B3).
    specialize (Hpts i day Hi). rewrite Hd in Hpts. cbn [default] in Hpts. unfold id in Hpts.
    cbv zeta in *. destruct Hpts as (P1 & P2 & P3).
    repeat (split; [assumption|]). assumption. }
  intros Hs. split; [now rewrite Hs|].
  intros i Hi. specialize (Hpts i _ Hi). rewrite Hy, Hs in Hpts. cbv zeta in Hpts.
  destruct Hpts as (P1 & P2 & P3).
  change (percent _ _) with (Returned (F64.of_int 50)) in P1.
  change (percent _ _) with (Returned (F64.of_int 25)) in P2.
  change (percent _ _) with (Returned (F64.of_int 25)) in P3.
  destruct (ps !! i), (us !! i), (ns !! i); try discriminate.
  injection P1 as ->. injection P2 as ->. injection P3 as ->. repeat split.
Qed.

Lemma neutral_count_is_residual_witness :
  exists (positive neutral negative : list F64.float),
    daily_mood_summary sample_config sample_env yesterday_world =
      (Returned tt,
       with_call (SendMessage (admin_group_id sample_config)
                    (SummaryText (yesterday sample_env) 2 1 1) []
                    (Some (py "mood_summary.png")))
         (with_call (SaveFig (py "mood_summary.png") [yesterday sample_env]
                       positive neutral negative) yesterday_world)) /\
    positive !! 0%nat = Some (F64.of_int 50) /\
    neutral !! 0%nat = Some (F64.of_int 25) /\
    negative !! 0%nat = Some (F64.of_int 25).
Proof.
  destruct (neutral_count_is_residual sample_config sample_env yesterday_world
              scenario_bucket)
    as (ps & us & ns & p & u & n & Hrun & _ & _ & _ & _ & _ & _ & _ & _ & _ & _ & Hsc).
  - vm_compute. reflexivity.
  - discriminate.
  - intros day. unfold yesterday_world. cbn [messages_data].
    destruct (decide (day = yesterday sample_env)) as [->|Hd].
    + rewrite lookup_insert_eq. discriminate.
    + rewrite lookup_insert_ne by congruence. rewrite lookup_empty. discriminate.
  - destruct (Hsc eq_refl) as [Hc Hp]. injection Hc as -> -> ->.
    exists ps, us, ns. split; [exact Hrun|].
    apply (Hp 0%nat). vm_compute. reflexivity.
Defined.

(** ** The record store: label updates *)

Lemma with_db_same (w : world) : with_db (db w) w = w.
Proof. now destruct w. Qed.

Lemma update_feedback_unknown (E : env) (w : world) (unique_id label : str) :
  db w !! unique_id = None -> db_up E = true ->
  update_feedback_in_dataset E unique_id label w = (Returned tt, w).
Proof.
  intros Hnone Hup. unfold update_feedback_in_dataset. rewrite Hup. cbn [negb].
  rewrite alter_id by (intros r Hr; congruence).
  now rewrite with_db_same.
Qed.

Lemma update_feedback_offline (E : env) (w : world) (unique_id label : str) :
  db_up E = false ->
  update_feedback_in_dataset E unique_id label w = (Raised OperationalError, w).
Proof. intros Hup. unfold update_feedback_in_dataset. now rewrite Hup. Qed.

(** C6 (as amended). For every id that is not in the table, the update
    changes no row; it returns as it does for an id that is there, with no
    error for the caller, unless SQLite itself cannot be reached. *)
Theorem update_unknown_id_is_silent (E : env) (w : world) (unique_id label : str) :
  db w !! unique_id = None ->
  snd (update_feedback_in_dataset E unique_id label w) = w /\
  (db_up E = true ->
   fst (update_feedback_in_dataset E unique_id label w) = Returned tt) /\
  (db_up E = false ->
   fst (update_feedback_in_dataset E unique_id label w) = Raised OperationalError).
Proof.
  intros Hnone. destruct (db_up E) eqn:Hup.
  - rewrite (update_feedback_unknown E w unique_id label Hnone Hup).
    repeat split. discriminate.
  - rewrite (update_feedback_offline E w unique_id label Hup).
    repeat split. discriminate.
Qed.

Lemma update_unknown_id_is_silent_witness :
  snd (update_feedback_in_dataset sample_env (py "missing") (py "negative") empty_world)
  = empty_world.
Proof.
  apply (update_unknown_id_is_silent sample_env empty_world (py "missing") (py "negative")).
  vm_compute. reflexivity.
Defined.

(** C6 (as stated) fails: on the empty table the update of an unknown id
    returns normally and raises nothing. *)
Lemma update_unknown_id_raises_nothing :
  db empty_world !! py "missing" = None /\
  update_feedback_in_dataset sample_env (py "missing") (py "negative") empty_world
  = (Returned tt, empty_world) /\
  forall e : exn,
    fst (update_feedback_in_dataset sample_env (py "missing") (py "negative") empty_world)
    <> Raised e.
Proof.
  assert (Hnone : db empty_world !! py "missing" = None) by (vm_compute; reflexivity).
  pose proof (update_feedback_unknown sample_env empty_world (py "missing")
                (py "negative") Hnone eq_refl) as Hr.
  split; [exact Hnone|]. split; [exact Hr|].
  intros e. rewrite Hr. discriminate.
Qed.

(** ** The feedback handler *)

Lemma partition_contains (sep s : str) :
  contains sep s = true -> exists a b, PyStr.partition sep s = Some (a, b).
Proof.
  induction s as [|c s IH]; cbn [contains PyStr.partition].
  - rewrite orb_false_r. intros ->. eauto.
  - destruct (startswith sep (c :: s)); [eauto|].
    cbn [orb]. intros (a & b & ->)%IH. eauto.
Qed.

Section Feedback.

Variable E : env.

(** A run on a payload that decodes to a text with a colon, while SQLite
    can be reached. *)
Lemma handle_feedback_well_formed (event : callback_query) (w : world)
    (text before unique_id : str) :
  Utf8.decode (data event) = Some text ->
  PyStr.partition (py ":") text = Some (before, unique_id) ->
  db_up E = true ->
  let label :=
    if contains (py "label_negative") text then py "negative" else py "not_negative" in
  let w1 := with_call (Answer (py "Feedback recorded! Thank you."))
              (with_db (alter (set_label label) unique_id (db w)) w) in
  handle_feedback E event w =
  match message event with
  | Some msg => (Returned tt, with_call (DeleteMessage msg) w1)
  | None => (Raised AttributeError, w1)
  end.
Proof.
  intros Hd Hp Hup label w1. unfold handle_feedback.
  unfold bind at 1. rewrite Hd. cbn [or_raise ret].
  unfold bind at 1. unfold split1. rewrite Hp. cbn [lookup list_lookup or_raise ret].
  unfold bind at 1. unfold update_feedback_in_dataset. rewrite Hup. cbn [negb].
  unfold bind at 1. cbn [emit].
  unfold bind at 1. destruct (message event); reflexivity.
Qed.

Lemma handle_feedback_undecodable (event : callback_query) (w : world) :
  Utf8.decode (data event) = None ->
  handle_feedback E event w = (Raised UnicodeDecodeError, w).
Proof. intros Hd. unfold handle_feedback, bind. now rewrite Hd. Qed.

Lemma handle_feedback_no_colon (event : callback_query) (w : world) (text : str) :
  Utf8.decode (data event) = Some text ->
  PyStr.partition (py ":") text = None ->
  handle_feedback E event w = (Raised IndexError, w).
Proof.
  intros Hd Hp. unfold handle_feedback.
  unfold bind at 1. rewrite Hd. cbn [or_raise ret].
  unfold bind at 1. unfold split1. now rewrite Hp.
Qed.

End Feedback.

(** C7 (as amended). For every interaction whose payload is UTF-8 text
    with a colon in it, while SQLite can be reached, the reviewer is
    answered, whether or not a row has the id; the handler returns without
    raising when the alert message can still be fetched. *)
Theorem feedback_answered_when_well_formed
    (E : env) (event : callback_query) (w : world) (text : str) :
  Utf8.decode (data event) = Some text ->
  contains (py ":") text = true ->
  db_up E = true ->
  In (Answer (py "Feedback recorded! Thank you."))
     (new_calls w (snd (handle_feedback E event w))) /\
  (forall msg, message event = Some msg ->
               fst (handle_feedback E event w) = Returned tt).
Proof.
  intros Hd (before & unique_id & Hp)%partition_contains Hup.
  rewrite (handle_feedback_well_formed E event w text before unique_id Hd Hp Hup).
  split.
  - unfold new_calls.
    destruct (message event); cbn [snd calls with_call with_db];
      rewrite <- ?app_assoc, drop_app_length; now left.
  - now intros msg ->.
Qed.

Lemma feedback_answered_when_well_formed_witness :
  In (Answer (py "Feedback recorded! Thank you."))
     (new_calls empty_world
        (snd (handle_feedback sample_env
                {| data := py "label_negative:no-such-row"; message := Some 42 |}
                empty_world))).
Proof.
  apply (feedback_answered_when_well_formed sample_env
           {| data := py "label_negative:no-such-row"; message := Some 42 |}
           empty_world (py "label_negative:no-such-row"));
    vm_compute; reflexivity.
Defined.

(** C7 (as stated) fails: a payload without a colon makes the handler
    raise IndexError, and a payload that is not UTF-8 makes it raise
    UnicodeDecodeError, in both cases before anything is answered. *)
Lemma feedback_malformed_payload_raises :
  handle_feedback sample_env garbled_query empty_world = (Raised IndexError, empty_world) /\
  handle_feedback sample_env undecodable_query empty_world
    = (Raised UnicodeDecodeError, empty_world) /\
  ~ In (Answer (py "Feedback recorded! Thank you."))
       (calls (snd (handle_feedback sample_env garbled_query empty_world))).
Proof.
  assert (H1 : handle_feedback sample_env garbled_query empty_world
               = (Raised IndexError, empty_world)).
  { apply (handle_feedback_no_colon sample_env garbled_query empty_world (py "garbage"));
      vm_compute; reflexivity. }
  split; [exact H1|]. split.
  - apply handle_feedback_undecodable. vm_compute. reflexivity.
  - rewrite H1. cbn [snd calls empty_world]. intros [].
Qed.

(** ** Payloads of the two buttons *)

Lemma partition_negative (id : str) :
  PyStr.partition (py ":") (py "label_negative:" ++ id) = Some (py "label_negative", id).
Proof. reflexivity. Qed.

Lemma partition_not_negative (id : str) :
  PyStr.partition (py ":") (py "label_not_negative:" ++ id)
  = Some (py "label_not_negative", id).
Proof. reflexivity. Qed.

Lemma contains_negative (id : str) :
  contains (py "label_negative") (py "label_negative:" ++ id) = true.
Proof. reflexivity. Qed.

Lemma contains_not_negative (id : str) :
  forallb Uuid.uuid_char id = true ->
  contains (py "label_negative") (py "label_not_negative:" ++ id) = false.
Proof.
  intros H. pose proof (no_token_in_uuid id H) as Hn.
  cbn. cbn in Hn. exact Hn.
Qed.

Lemma two_calls (w : world) (d : gmap str row) (a b : call) :
  with_call b (with_call a (with_db d w))
  = {| db := d; messages_data := messages_data w; calls := calls w ++ [a; b] |}.
Proof. unfold with_call, with_db. cbn. now rewrite <- app_assoc. Qed.

(** C10. For every identifier the store draws (36 hexadecimal digits and
    hyphens), the payload of the first button is answered with the label
    negative and the payload of the second with not_negative, both for
    that identifier: the test for the token label_negative holds on the
    first payload and fails on the second. *)
Theorem feedback_tokens_not_confused
    (E : env) (w : world) (unique_id : str) (msg : Z) :
  Uuid.uuid_shaped unique_id = true ->
  db_up E = true ->
  let negative := py "label_negative:" ++ unique_id in
  let not_negative := py "label_not_negative:" ++ unique_id in
  let labelled l :=
    {| db := alter (set_label l) unique_id (db w);
       messages_data := messages_data w;
       calls := calls w ++ [Answer (py "Feedback recorded! Thank you.");
                            DeleteMessage msg] |} in
  Utf8.encode negative = Some negative /\
  Utf8.encode not_negative = Some not_negative /\
  contains (py "label_negative") negative = true /\
  contains (py "label_negative") not_negative = false /\
  handle_feedback E {| data := negative; message := Some msg |} w
    = (Returned tt, labelled (py "negative")) /\
  handle_feedback E {| data := not_negative; message := Some msg |} w
    = (Returned tt, labelled (py "not_negative")).
Proof.
  intros Hid Hup negative not_negative labelled.
  assert (Ha1 : forallb (fun c => (0 <=? c) && (c <? 128)) negative = true)
    by (apply payload_ascii; [reflexivity|assumption]).
  assert (Ha2 : forallb (fun c => (0 <=? c) && (c <? 128)) not_negative = true)
    by (apply payload_ascii; [reflexivity|assumption]).
  assert (Hc : contains (py "label_negative") not_negative = false).
  { apply contains_not_negative. now apply andb_prop in Hid as [_ ?]. }
  split; [now apply encode_ascii|]. split; [now apply encode_ascii|].
  split; [apply contains_negative|]. split; [exact Hc|]. split.
  - rewrite (handle_feedback_well_formed E {| data := negative; message := Some msg |}
               w negative (py "label_negative") unique_id
               (decode_ascii _ Ha1) (partition_negative unique_id) Hup).
    cbn [message]. unfold negative at 1. rewrite contains_negative.
    now rewrite two_calls.
  - rewrite (handle_feedback_well_formed E {| data := not_negative; message := Some msg |}
               w not_negative (py "label_not_negative")
               unique_id (decode_ascii _ Ha2) (partition_not_negative unique_id) Hup).
    cbn [message]. rewrite Hc. now rewrite two_calls.
Qed.

Lemma feedback_tokens_not_confused_witness :
  contains (py "label_negative") (py "label_not_negative:" ++ drawn_id sample_env) = false.
Proof.
  apply (feedback_tokens_not_confused sample_env empty_world (drawn_id sample_env) 42);
    vm_compute; reflexivity.
Defined.

(** ** Invariants of the shared state *)

Lemma empty_world_healthy : healthy empty_world.
Proof.
  split.
  - intros id r. cbn [empty_world db]. now rewrite lookup_empty.
  - intros day. cbn [empty_world messages_data]. now rewrite lookup_empty.
Qed.

Lemma mood_analyzer_healthy (X : externals) (C : config) (E : env)
    (ev : new_message) (w : world) :
  healthy w -> healthy (snd (mood_analyzer X C E ev w)).
Proof.
  intros [Hi Hb].
  destruct (accepted ev) eqn:Ha.
  2:{ now rewrite (mood_analyzer_ignored X C E ev w Ha). }
  destruct (db_up E) eqn:Hup.
  - destruct (db w !! drawn_id E) as [r|] eqn:Hf.
    + rewrite (mood_analyzer_insert_raises X C E ev w IntegrityError Ha); [now split|].
      unfold save_message_data. fold (drawn_id E). now rewrite Hup, Hf.
    + rewrite (mood_analyzer_ingested X C E ev w Ha Hup Hf). cbn [snd]. split.
      * intros id r. cbn [db].
        destruct (decide (drawn_id E = id)) as [<-|Hne].
        -- intros _. apply uuid4_str_shaped.
        -- rewrite lookup_insert_ne by assumption. apply Hi.
      * apply (record_sentiment_nonempty (today E) (event_sentiment X ev) w Hb).
  - rewrite (mood_analyzer_insert_raises X C E ev w OperationalError Ha); [now split|].
    unfold save_message_data. now rewrite Hup.
Qed.

Lemma alter_ids_shaped (d : gmap str row) (f : row -> row) (id : str) :
  ids_shaped d -> ids_shaped (alter f id d).
Proof.
  intros H i r. destruct (decide (id = i)) as [<-|Hne].
  - rewrite lookup_alter_eq. intros (r0 & Hr0 & _)%fmap_Some. now apply (H id r0).
  - rewrite lookup_alter_ne by assumption. apply H.
Qed.

Lemma handle_feedback_healthy (E : env) (event : callback_query) (w : world) :
  healthy w -> healthy (snd (handle_feedback E event w)).
Proof.
  intros [Hi Hb].
  destruct (Utf8.decode (data event)) as [text|] eqn:Hd.
  2:{ now rewrite (handle_feedback_undecodable E event w Hd). }
  destruct (PyStr.partition (py ":") text) as [[before id]|] eqn:Hp.
  2:{ now rewrite (handle_feedback_no_colon E event w text Hd Hp). }
  destruct (db_up E) eqn:Hup.
  - rewrite (handle_feedback_well_formed E event w text before id Hd Hp Hup).
    destruct (message event); cbn [snd]; (split; [now apply alter_ids_shaped|exact Hb]).
  - unfold handle_feedback.
    unfold bind at 1. rewrite Hd. cbn [or_raise ret].
    unfold bind at 1. unfold split1. rewrite Hp. cbn [lookup list_lookup or_raise ret].
    unfold bind at 1. rewrite (update_feedback_offline E w id _ Hup). now split.
Qed.

Lemma daily_mood_summary_state (C : config) (E : env) (w : world) :
  db (snd (daily_mood_summary C E w)) = db w /\
  messages_data (snd (daily_mood_summary C E w)) = messages_data w.
Proof.
  unfold daily_mood_summary, bind, read_messages_data.
  destruct (messages_data w !! yesterday E) as [[|s bucket]|]; try (now split).
  unfold generate_mood_chart.
  destruct (chart_series (messages_data w) (sorted_keys (messages_data w)))
    as [[[ps us] ns]|e]; now split.
Qed.

(** The substring test relies on the shape of the identifiers: on a
    payload whose identifier part spells the first token, it would take
    the second button for the first. *)
Example token_test_needs_shaped_id :
  contains (py "label_negative") (py "label_not_negative:" ++ py "label_negative") = true.
Proof. reflexivity. Qed.

(** ** The record store: inserts and updates *)

(** After a successful insert the new identifier maps to the row just
    built, every other identifier maps to what it did, the table has one
    row more, and nothing else in the state has changed. *)
Theorem save_message_data_inserts
    (E : env) (t s : str) (sc : F64.float) (l : option str) (w : world) :
  db_up E = true -> db w !! drawn_id E = None ->
  let run := save_message_data E t s sc l w in
  fst run = Returned (drawn_id E) /\
  db (snd run) !! drawn_id E =
    Some {| message_text := t; sentiment := s; score := sc; label := l;
            timestamp := current_timestamp E |} /\
  (forall id, id <> drawn_id E -> db (snd run) !! id = db w !! id) /\
  size (db (snd run)) = S (size (db w)) /\
  messages_data (snd run) = messages_data w /\
  calls (snd run) = calls w.
Proof.
  intros Hup Hfresh run. unfold run.
  rewrite (save_message_data_fresh E t s sc l w Hup Hfresh). cbn [fst snd with_db db].
  split; [reflexivity|]. split; [apply lookup_insert_eq|].
  split; [intros id Hid; now apply lookup_insert_ne|].
  split; [now apply map_size_insert_None|]. now split.
Qed.

Lemma save_message_data_inserts_witness :
  size (db (snd (save_message_data sample_env salam (py "NEUTRAL") score_0_92 None
                   empty_world))) = 1%nat.
Proof.
  apply (save_message_data_inserts sample_env salam (py "NEUTRAL") score_0_92 None
           empty_world); vm_compute; reflexivity.
Defined.

(** The insert never overwrites.  Whatever the arguments and the
    outcome, a row that was in the table is still there, unchanged: also
    when the identifier drawn is already a key, where the row under that
    key is kept.  An identifier that is returned was no key before, and
    the table grows by one row at most. *)
Theorem save_message_data_never_overwrites
    (E : env) (t s : str) (sc : F64.float) (l : option str) (w : world)
    (id : str) (r : row) :
  db w !! id = Some r ->
  let run := save_message_data E t s sc l w in
  db (snd run) !! id = Some r /\
  (forall new_id, fst run = Returned new_id -> new_id <> id /\ db w !! new_id = None) /\
  (size (db w) <= size (db (snd run)) <= S (size (db w)))%nat.
Proof.
  intros Hr run. unfold run, save_message_data.
  destruct (db_up E); cbn [negb].
  2:{ cbn [fst snd]. split; [exact Hr|]. split; [discriminate|lia]. }
  destruct (db w !! Uuid.uuid4_str (urandom E)) as [r'|] eqn:Hf; cbn [fst snd].
  { split; [exact Hr|]. split; [discriminate|lia]. }
  cbn [with_db db].
  assert (Hne : Uuid.uuid4_str (urandom E) <> id) by congruence.
  split; [now rewrite lookup_insert_ne|].
  split; [intros new_id [= <-]; now split|].
  rewrite (map_size_insert_None _ _ _ Hf). lia.
Qed.

Lemma save_message_data_never_overwrites_witness :
  db (snd (save_message_data sample_env salam (py "NEUTRAL") score_0_92 None
             labelled_world)) !! drawn_id_of_sample
  = db labelled_world !! drawn_id_of_sample.
Proof.
  unfold labelled_world at 2. cbn [db]. rewrite lookup_insert_eq.
  apply (save_message_data_never_overwrites sample_env salam (py "NEUTRAL") score_0_92
           None labelled_world).
  unfold labelled_world. cbn [db]. apply lookup_insert_eq.
Defined.

(** An update of a known identifier sets the label of that row and
    nothing else: its text, sentiment, score and timestamp stay, every
    other row stays, and so do the keys of the table. *)
Theorem update_feedback_sets_only_label
    (E : env) (w : world) (unique_id label0 : str) (r : row) :
  db_up E = true -> db w !! unique_id = Some r ->
  let run := update_feedback_in_dataset E unique_id label0 w in
  fst run = Returned tt /\
  db (snd run) !! unique_id =
    Some {| message_text := message_text r; sentiment := sentiment r; score := score r;
            label := Some label0; timestamp := timestamp r |} /\
  (forall id, id <> unique_id -> db (snd run) !! id = db w !! id) /\
  dom (db (snd run)) = dom (db w) /\
  messages_data (snd run) = messages_data w /\
  calls (snd run) = calls w.
Proof.
  intros Hup Hr run. unfold run, update_feedback_in_dataset. rewrite Hup.
  cbn [negb fst snd with_db db messages_data calls].
  split; [reflexivity|].
  split; [now rewrite lookup_alter_eq, Hr|].
  split; [intros id Hid; now apply lookup_alter_ne|].
  split; [apply dom_alter_L|]. now split.
Qed.

Lemma update_feedback_sets_only_label_witness :
  db (snd (update_feedback_in_dataset sample_env (drawn_id sample_env) (py "negative")
             labelled_world)) !! drawn_id sample_env
  = Some {| message_text := salam; sentiment := py "NEGATIVE"; score := score_0_92;
            label := Some (py "negative"); timestamp := current_timestamp sample_env |}.
Proof.
  apply (update_feedback_sets_only_label sample_env labelled_world (drawn_id sample_env)
           (py "negative")
           {| message_text := salam; sentiment := py "NEGATIVE"; score := score_0_92;
              label := Some (py "not_negative");
              timestamp := current_timestamp sample_env |});
    vm_compute; reflexivity.
Defined.



(** ** Classification *)

(** Whatever the pipeline does, the outcome is one of the four sentiments.
    It is ERROR, with score 0.0, exactly when the pipeline raised or
    returned no result; otherwise the first result decides: HAPPY gives
    POSITIVE, SAD gives NEGATIVE, any other label NEUTRAL, each with the
    score of that result. *)
Theorem analyze_sentiment_outcomes (X : externals) (text : str) :
  In (fst (analyze_sentiment X text))
     [py "POSITIVE"; py "NEGATIVE"; py "NEUTRAL"; py "ERROR"] /\
  (fst (analyze_sentiment X text) = py "ERROR" <->
   sentiment_pipeline X text = None \/ sentiment_pipeline X text = Some []) /\
  (fst (analyze_sentiment X text) = py "ERROR" ->
   snd (analyze_sentiment X text) = F64.lit_0_0) /\
  (forall label0 score0 rest,
     sentiment_pipeline X text = Some ((label0, score0) :: rest) ->
     snd (analyze_sentiment X text) = score0 /\
     (fst (analyze_sentiment X text) = py "POSITIVE" <-> label0 = py "HAPPY") /\
     (fst (analyze_sentiment X text) = py "NEGATIVE" <-> label0 = py "SAD") /\
     (fst (analyze_sentiment X text) = py "NEUTRAL" <->
      label0 <> py "HAPPY" /\ label0 <> py "SAD")).
Proof.
  unfold analyze_sentiment.
  destruct (sentiment_pipeline X text) as [[|[lb sc] rest]|].
  - cbn [fst snd]. split; [cbn; tauto|]. split; [tauto|]. split; [reflexivity|].
    intros l0 s0 r0 H. discriminate H.
  - destruct (decide (lb = py "HAPPY")) as [Hh|Hh];
      [|destruct (decide (lb = py "SAD")) as [Hs|Hs]]; cbn [fst snd];
      (split; [cbn; tauto|]);
      (split; [split; [intros H; discriminate H|intros [H|H]; discriminate H]|]);
      (split; [intros H; discriminate H|]);
      intros l0 s0 r0 [= <- <- <-]; (split; [reflexivity|]);
      repeat split; intros; subst;
        repeat match goal with
               | H : py _ = py _ |- _ => exfalso; discriminate H
               | H : _ /\ _ |- _ => destruct H
               end;
        try reflexivity; try assumption; try contradiction; try discriminate.
  - cbn [fst snd]. split; [cbn; tauto|]. split; [tauto|]. split; [reflexivity|].
    intros l0 s0 r0 H. discriminate H.
Qed.

(** ** The ingestion handler: what a run changes *)

(** A message that is not from a group, or that has no text, changes
    nothing and raises nothing, also when SQLite cannot be reached. *)
Theorem mood_analyzer_skips_private_and_empty
    (X : externals) (C : config) (E : env) (ev : new_message) (w : world) :
  is_group ev = false \/ raw_text ev = [] ->
  mood_analyzer X C E ev w = (Returned tt, w).
Proof.
  intros H. apply mood_analyzer_ignored. unfold accepted.
  destruct H as [-> | ->]; [reflexivity|apply andb_false_r].
Qed.

Lemma mood_analyzer_skips_private_and_empty_witness :
  mood_analyzer sample_externals sample_config offline_env private_event empty_world
  = (Returned tt, empty_world).
Proof.
  apply (mood_analyzer_skips_private_and_empty sample_externals sample_config offline_env
           private_event empty_world).
  left. reflexivity.
Defined.

(** An ingested message adds one row and one bucket entry: the row under
    the identifier drawn holds the normalised text and the classification,
    no other row changes, the bucket of the day gets the sentiment of that
    row at its end, and no other bucket changes. *)
Theorem mood_analyzer_records_once
    (X : externals) (C : config) (E : env) (ev : new_message) (w : world) :
  accepted ev = true -> db_up E = true -> db w !! drawn_id E = None ->
  let w' := snd (mood_analyzer X C E ev w) in
  db w' !! drawn_id E = Some (event_row X E ev) /\
  (forall id, id <> drawn_id E -> db w' !! id = db w !! id) /\
  size (db w') = S (size (db w)) /\
  messages_data w' !! today E
    = Some (default [] (messages_data w !! today E) ++ [sentiment (event_row X E ev)]) /\
  (forall day, day <> today E -> messages_data w' !! day = messages_data w !! day).
Proof.
  intros Ha Hup Hfresh w'. unfold w'.
  rewrite (mood_analyzer_ingested X C E ev w Ha Hup Hfresh). cbn [snd db messages_data].
  split; [apply lookup_insert_eq|].
  split; [intros id Hid; now apply lookup_insert_ne|].
  split; [now apply map_size_insert_None|].
  split; [apply lookup_insert_eq|].
  intros day Hd. now apply lookup_insert_ne.
Qed.

Lemma mood_analyzer_records_once_witness :
  size (db (snd (mood_analyzer sample_externals sample_config sample_env monitored_event
                   empty_world))) = 1%nat.
Proof.
  apply (mood_analyzer_records_once sample_externals sample_config sample_env
           monitored_event empty_world); vm_compute; reflexivity.
Defined.

Lemma counted_comm (z1 z2 : list str) (y : nat) :
  (length z1 + (length z2 + y) = length z2 + (length z1 + y))%nat.
Proof. lia. Qed.

Lemma counted_insert (d : gmap str (list str)) (day : str) (bucket : list str) :
  (counted (<[day := bucket]> d) + length (default [] (d !! day))
   = counted d + length bucket)%nat.
Proof.
  unfold counted. destruct (d !! day) as [old|] eqn:Hd; cbn [default from_option id].
  - rewrite <- (insert_delete_eq d day bucket).
    rewrite map_fold_insert_L;
      [|intros; apply counted_comm|apply lookup_delete_eq].
    rewrite (map_fold_delete_L _ _ day old d); [|intros; apply counted_comm|exact Hd].
    unfold id. lia.
  - rewrite map_fold_insert_L; [|intros; apply counted_comm|exact Hd].
    cbn [length]. lia.
Qed.

(** The table and the buckets stay in step: whatever the event and
    whatever the outcome, a run adds as many rows to the table as it adds
    sentiments to the buckets. *)
Theorem mood_analyzer_keeps_store_and_buckets_in_step
    (X : externals) (C : config) (E : env) (ev : new_message) (w : world) :
  let w' := snd (mood_analyzer X C E ev w) in
  (size (db w') + counted (messages_data w)
   = size (db w) + counted (messages_data w'))%nat.
Proof.
  intros w'. unfold w'.
  destruct (accepted ev) eqn:Ha.
  2:{ now rewrite (mood_analyzer_ignored X C E ev w Ha). }
  destruct (db_up E) eqn:Hup.
  - destruct (db w !! drawn_id E) as [r|] eqn:Hf.
    + rewrite (mood_analyzer_insert_raises X C E ev w IntegrityError Ha); [reflexivity|].
      unfold save_message_data. fold (drawn_id E). now rewrite Hup, Hf.
    + rewrite (mood_analyzer_ingested X C E ev w Ha Hup Hf). cbn [snd db messages_data].
      rewrite (map_size_insert_None _ _ _ Hf).
      pose proof (counted_insert (messages_data w) (today E)
                    (default [] (messages_data w !! today E) ++ [event_sentiment X ev]))
        as Hc.
      rewrite length_app in Hc. cbn [length] in Hc. lia.
  - rewrite (mood_analyzer_insert_raises X C E ev w OperationalError Ha); [reflexivity|].
    unfold save_message_data. now rewrite Hup.
Qed.



(** ** The feedback handler: what a run changes *)

Lemma handle_feedback_offline (E : env) (event : callback_query) (w : world)
    (text before unique_id : str) :
  Utf8.decode (data event) = Some text ->
  PyStr.partition (py ":") text = Some (before, unique_id) ->
  db_up E = false ->
  handle_feedback E event w = (Raised OperationalError, w).
Proof.
  intros Hd Hp Hup. unfold handle_feedback.
  unfold bind at 1. rewrite Hd. cbn [or_raise ret].
  unfold bind at 1. unfold split1. rewrite Hp. cbn [lookup list_lookup or_raise ret].
  unfold bind at 1. now rewrite (update_feedback_offline E w unique_id _ Hup).
Qed.

(** The state after any run: as before, or with one label set and the
    answer (and the deletion) added to the calls. *)
Lemma handle_feedback_cases (E : env) (event : callback_query) (w : world) :
  snd (handle_feedback E event w) = w \/
  exists unique_id label0 rest,
    snd (handle_feedback E event w) =
      {| db := alter (set_label label0) unique_id (db w);
         messages_data := messages_data w;
         calls := calls w ++ Answer (py "Feedback recorded! Thank you.") :: rest |} /\
    (rest = [] \/ exists msg, rest = [DeleteMessage msg]).
Proof.
  destruct (Utf8.decode (data event)) as [text|] eqn:Hd.
  2:{ left. now rewrite (handle_feedback_undecodable E event w Hd). }
  destruct (PyStr.partition (py ":") text) as [[before id]|] eqn:Hp.
  2:{ left. now rewrite (handle_feedback_no_colon E event w text Hd Hp). }
  destruct (db_up E) eqn:Hup.
  2:{ left. now rewrite (handle_feedback_offline E event w text before id Hd Hp Hup). }
  right. rewrite (handle_feedback_well_formed E event w text before id Hd Hp Hup).
  exists id. eexists.
  destruct (message event) as [msg|]; cbn [snd].
  - exists [DeleteMessage msg]. split; [apply two_calls|]. right. eauto.
  - exists []. split; [reflexivity|]. now left.
Qed.

(** A run of the feedback handler never touches the buckets, never adds
    or removes a row and never changes the text, sentiment, score or
    timestamp of a row; the only calls it issues are the answer to the
    reviewer and the deletion of the alert. *)
Theorem handle_feedback_changes_labels_only
    (E : env) (event : callback_query) (w : world) :
  let w' := snd (handle_feedback E event w) in
  messages_data w' = messages_data w /\
  dom (db w') = dom (db w) /\
  (forall id r, db w !! id = Some r ->
     exists r', db w' !! id = Some r' /\
                message_text r' = message_text r /\ sentiment r' = sentiment r /\
                score r' = score r /\ timestamp r' = timestamp r) /\
  (forall c, In c (new_calls w w') ->
     c = Answer (py "Feedback recorded! Thank you.") \/ exists msg, c = DeleteMessage msg).
Proof.
  intros w'. unfold w'.
  destruct (handle_feedback_cases E event w) as [->|(uid & l & rest & -> & Hrest)].
  - split; [reflexivity|]. split; [reflexivity|].
    split; [intros id r Hr; exists r; now repeat split|].
    rewrite new_calls_same. intros c [].
  - cbn [db messages_data]. split; [reflexivity|]. split; [apply dom_alter_L|]. split.
    + intros id r Hr. destruct (decide (uid = id)) as [->|Hne].
      * exists (set_label l r). rewrite lookup_alter_eq, Hr. now repeat split.
      * exists r. rewrite lookup_alter_ne by assumption. now repeat split.
    + unfold new_calls. cbn [calls]. rewrite drop_app_length.
      intros c [<-|Hc]; [now left|]. right.
      destruct Hrest as [->|[msg ->]]; [destruct Hc|].
      destruct Hc as [<-|[]]. eauto.
Qed.

Lemma partition_first_colon (before rest : str) :
  ~ In 58 before ->
  PyStr.partition (py ":") (before ++ 58 :: rest) = Some (before, rest).
Proof.
  induction before as [|c before IH]; intros Hn; [reflexivity|].
  assert (Hc : c <> 58) by (intros ->; apply Hn; now left).
  cbn [app PyStr.partition].
  change (startswith (py ":") (c :: before ++ 58 :: rest))
    with ((58 =? c) && true).
  destruct (Z.eqb_spec 58 c) as [Heq|_]; [now destruct Hc|].
  cbn [andb]. rewrite IH; [reflexivity|]. intros H. apply Hn. now right.
Qed.

(** The identifier the handler updates is everything after the first
    colon of the payload, colons included; the label is negative when the
    token label_negative occurs anywhere in the payload and not_negative
    in every other case. *)
Theorem handle_feedback_reads_id_after_first_colon
    (E : env) (event : callback_query) (w : world) (before rest : str) (msg : Z) :
  Utf8.decode (data event) = Some (before ++ 58 :: rest) ->
  ~ In 58 before ->
  message event = Some msg ->
  db_up E = true ->
  handle_feedback E event w =
  (Returned tt,
   {| db := alter (set_label
                     (if contains (py "label_negative") (before ++ 58 :: rest)
                      then py "negative" else py "not_negative"))
              rest (db w);
      messages_data := messages_data w;
      calls := calls w ++ [Answer (py "Feedback recorded! Thank you.");
                           DeleteMessage msg] |}).
Proof.
  intros Hd Hn Hm Hup.
  rewrite (handle_feedback_well_formed E event w _ before rest Hd
             (partition_first_colon before rest Hn) Hup).
  rewrite Hm. now rewrite two_calls.
Qed.

Lemma handle_feedback_reads_id_after_first_colon_witness :
  handle_feedback sample_env {| data := py "skip:a:b"; message := Some 42 |} empty_world =
  (Returned tt,
   {| db := alter (set_label (py "not_negative")) (py "a:b") (db empty_world);
      messages_data := messages_data empty_world;
      calls := calls empty_world ++ [Answer (py "Feedback recorded! Thank you.");
                                     DeleteMessage 42] |}).
Proof.
  apply (handle_feedback_reads_id_after_first_colon sample_env
           {| data := py "skip:a:b"; message := Some 42 |} empty_world
           (py "skip") (py "a:b") 42); try reflexivity.
  cbn. intros H. repeat destruct H as [H|H]; try discriminate H. exact H.
Defined.

(** When SQLite cannot be reached the handler raises before it answers:
    the reviewer gets no acknowledgement and the state is as before. *)
Theorem handle_feedback_store_down_no_answer
    (E : env) (event : callback_query) (w : world) (text : str) :
  Utf8.decode (data event) = Some text ->
  contains (py ":") text = true ->
  db_up E = false ->
  handle_feedback E event w = (Raised OperationalError, w).
Proof.
  intros Hd (before & unique_id & Hp)%partition_contains Hup.
  exact (handle_feedback_offline E event w text before unique_id Hd Hp Hup).
Qed.

Lemma handle_feedback_store_down_no_answer_witness :
  handle_feedback offline_env
    {| data := py "label_negative:no-such-row"; message := Some 42 |} empty_world
  = (Raised OperationalError, empty_world).
Proof.
  apply (handle_feedback_store_down_no_answer offline_env
           {| data := py "label_negative:no-such-row"; message := Some 42 |}
           empty_world (py "label_negative:no-such-row")); reflexivity.
Defined.

(** When the alert message can no longer be fetched the handler raises
    AttributeError, but only after the label was stored and the reviewer
    answered. *)
Theorem handle_feedback_message_gone
    (E : env) (event : callback_query) (w : world) (text before unique_id : str) :
  Utf8.decode (data event) = Some text ->
  PyStr.partition (py ":") text = Some (before, unique_id) ->
  db_up E = true ->
  message event = None ->
  handle_feedback E event w =
  (Raised AttributeError,
   {| db := alter (set_label
                     (if contains (py "label_negative") text
                      then py "negative" else py "not_negative"))
              unique_id (db w);
      messages_data := messages_data w;
      calls := calls w ++ [Answer (py "Feedback recorded! Thank you.")] |}).
Proof.
  intros Hd Hp Hup Hm.
  rewrite (handle_feedback_well_formed E event w text before unique_id Hd Hp Hup).
  now rewrite Hm.
Qed.

Lemma handle_feedback_message_gone_witness :
  fst (handle_feedback sample_env
         {| data := py "label_negative:no-such-row"; message := None |} empty_world)
  = Raised AttributeError.
Proof.
  rewrite (handle_feedback_message_gone sample_env
             {| data := py "label_negative:no-such-row"; message := None |}
             empty_world (py "label_negative:no-such-row") (py "label_negative")
             (py "no-such-row")); reflexivity.
Defined.

(** ** From the alert to the label *)

(** The two buttons of an alert lead back to the row the alert is about:
    given to the feedback handler, the payload of the first sets the label
    negative on the row just inserted, the payload of the second sets
    not_negative, and the rest of that row stays. *)
Theorem alert_buttons_label_the_row
    (X : externals) (C : config) (E E' : env) (ev : new_message) (w : world) (msg : Z) :
  accepted ev = true -> db_up E = true -> db w !! drawn_id E = None ->
  alarming X ev ->
  db_up E' = true ->
  let w1 := snd (mood_analyzer X C E ev w) in
  exists body d1 d2,
    new_calls w w1 =
      [SendMessage (admin_group_id C) body
         [Inline (py "Negative") d1; Inline (py "Not Negative") d2] None] /\
    db (snd (handle_feedback E' {| data := d1; message := Some msg |} w1)) !! drawn_id E
      = Some (set_label (py "negative") (event_row X E ev)) /\
    db (snd (handle_feedback E' {| data := d2; message := Some msg |} w1)) !! drawn_id E
      = Some (set_label (py "not_negative") (event_row X E ev)).
Proof.
  intros Ha Hup Hfresh Hal Hup' w1.
  pose proof (new_calls_ingested X C E ev w Ha Hup Hfresh) as Hn.
  apply alarming_test in Hal. rewrite Hal in Hn. fold w1 in Hn.
  assert (Hrow : db w1 !! drawn_id E = Some (event_row X E ev)).
  { unfold w1. rewrite (mood_analyzer_ingested X C E ev w Ha Hup Hfresh).
    cbn [snd db]. apply lookup_insert_eq. }
  pose proof (uuid4_str_shaped (urandom E)) as Hid. fold (drawn_id E) in Hid.
  assert (Hf : forallb Uuid.uuid_char (drawn_id E) = true)
    by now apply andb_prop in Hid as [_ ?].
  exists (AlertText (F64.mul (event_score X ev) (F64.of_int 100)) (event_text X ev)
            (default (py "Unknown") (chat_title ev))).
  exists (py "label_negative:" ++ drawn_id E), (py "label_not_negative:" ++ drawn_id E).
  split; [exact Hn|]. split.
  - rewrite (handle_feedback_well_formed E'
               {| data := py "label_negative:" ++ drawn_id E; message := Some msg |} w1
               (py "label_negative:" ++ drawn_id E) (py "label_negative") (drawn_id E)
               (decode_ascii _ (payload_ascii (py "label_negative:") _ eq_refl Hid))
               (partition_negative _) Hup').
    cbn [message snd with_call with_db db].
    rewrite contains_negative, lookup_alter_eq, Hrow. reflexivity.
  - rewrite (handle_feedback_well_formed E'
               {| data := py "label_not_negative:" ++ drawn_id E; message := Some msg |} w1
               (py "label_not_negative:" ++ drawn_id E) (py "label_not_negative")
               (drawn_id E)
               (decode_ascii _ (payload_ascii (py "label_not_negative:") _ eq_refl Hid))
               (partition_not_negative _) Hup').
    cbn [message snd with_call with_db db].
    rewrite (contains_not_negative _ Hf), lookup_alter_eq, Hrow. reflexivity.
Qed.

Lemma alert_buttons_label_the_row_witness :
  exists body d1 d2,
    new_calls empty_world
      (snd (mood_analyzer sample_externals sample_config sample_env monitored_event
              empty_world)) =
      [SendMessage (admin_group_id sample_config) body
         [Inline (py "Negative") d1; Inline (py "Not Negative") d2] None] /\
    db (snd (handle_feedback sample_env {| data := d1; message := Some 42 |}
               (snd (mood_analyzer sample_externals sample_config sample_env
                       monitored_event empty_world)))) !! drawn_id sample_env
      = Some (set_label (py "negative")
                (event_row sample_externals sample_env monitored_event)) /\
    db (snd (handle_feedback sample_env {| data := d2; message := Some 42 |}
               (snd (mood_analyzer sample_externals sample_config sample_env
                       monitored_event empty_world)))) !! drawn_id sample_env
      = Some (set_label (py "not_negative")
                (event_row sample_externals sample_env monitored_event)).
Proof.
  apply (alert_buttons_label_the_row sample_externals sample_config sample_env sample_env
           monitored_event empty_world 42);
    try (vm_compute; reflexivity).
  split; vm_compute; reflexivity.
Defined.

(** ** The chart *)

Lemma str_leb_total (a b : str) : str_leb a b = true \/ str_leb b a = true.
Proof.
  revert b. induction a as [|x a IH]; intros [|y b]; cbn [str_leb]; auto.
  destruct (Z.ltb_spec x y); [now left|].
  destruct (Z.ltb_spec y x); [now right|].
  assert (x = y) by lia. subst y. rewrite Z.eqb_refl. cbn [orb andb]. apply IH.
Qed.

Lemma chart_series_empty_bucket (d : gmap str (list str)) (dates : list str) (day : str) :
  day ∈ dates -> default [] (d !! day) = [] ->
  chart_series d dates = Raised ZeroDivisionError.
Proof.
  intros Hin He. induction dates as [|date dates IH]; [inversion Hin|].
  cbn [chart_series]. cbv zeta.
  destruct (default [] (d !! date)) as [|s l] eqn:Hb.
  - reflexivity.
  - assert (Hz : Z.of_nat (length (s :: l)) <> 0) by (cbn [length]; lia).
    destruct (percent_returns (count_eq (py "POSITIVE") (s :: l)) _ Hz) as [p Hp].
    destruct (percent_returns (count_eq (py "NEGATIVE") (s :: l)) _ Hz) as [n Hn].
    destruct (percent_returns
                (Z.of_nat (length (s :: l)) - count_eq (py "POSITIVE") (s :: l)
                 - count_eq (py "NEGATIVE") (s :: l)) _ Hz) as [u Hu].
    rewrite Hp, Hn, Hu.
    apply elem_of_cons in Hin as [->|Hin]; [rewrite Hb in He; discriminate|].
    now rewrite (IH Hin).
Qed.

Lemma sorted_keys_elem (d : gmap str (list str)) (day : str) :
  day ∈ sorted_keys d <-> is_Some (d !! day).
Proof.
  unfold sorted_keys. rewrite merge_sort_Permutation. split.
  - intros [[k v] [-> Hin]]%list_elem_of_fmap.
    apply elem_of_map_to_list in Hin. eauto.
  - intros [v Hv]. apply list_elem_of_fmap. exists (day, v). split; [reflexivity|].
    now apply elem_of_map_to_list.
Qed.

(** When no day has an empty bucket the chart is saved, with one point
    per day in each of the three series and the days in ascending order,
    each once. *)
Theorem generate_mood_chart_one_point_per_day
    (d : gmap str (list str)) (path : str) (w : world) :
  buckets_nonempty d ->
  exists positive neutral negative,
    generate_mood_chart d path w =
      (Returned tt, with_call (SaveFig path (sorted_keys d) positive neutral negative) w) /\
    length positive = size d /\ length neutral = size d /\ length negative = size d /\
    Sorted (fun a b => Is_true (str_leb a b)) (sorted_keys d) /\
    NoDup (sorted_keys d) /\
    (forall day, day ∈ sorted_keys d <-> is_Some (d !! day)).
Proof.
  intros Hne. unfold generate_mood_chart.
  destruct (chart_series_returns d (sorted_keys d)) as [[[ps us] ns] Hr].
  { intros date [v Hv]%sorted_keys_elem. destruct v as [|s l]; [|eauto].
    now destruct (Hne date). }
  rewrite Hr. exists ps, us, ns.
  destruct (chart_series_lengths d _ ps us ns Hr) as (H1 & H2 & H3).
  rewrite sorted_keys_length in H1, H2, H3.
  split; [reflexivity|]. repeat (split; [assumption|]).
  split.
  { unfold sorted_keys. apply Sorted_merge_sort.
    intros a b. destruct (str_leb_total a b) as [H|H]; rewrite H; [left|right]; exact I. }
  split; [|apply sorted_keys_elem].
  unfold sorted_keys. rewrite merge_sort_Permutation. apply NoDup_fst_map_to_list.
Qed.

Lemma generate_mood_chart_one_point_per_day_witness :
  exists positive neutral negative,
    generate_mood_chart (messages_data yesterday_world) (py "mood_summary.png")
      empty_world =
      (Returned tt,
       with_call (SaveFig (py "mood_summary.png")
                    (sorted_keys (messages_data yesterday_world))
                    positive neutral negative) empty_world) /\
    length positive = 1%nat.
Proof.
  destruct (generate_mood_chart_one_point_per_day (messages_data yesterday_world)
              (py "mood_summary.png") empty_world)
    as (ps & us & ns & Hrun & Hp & _).
  - intros day. unfold yesterday_world. cbn [messages_data].
    destruct (decide (day = yesterday sample_env)) as [->|Hd].
    + rewrite lookup_insert_eq. discriminate.
    + rewrite lookup_insert_ne by congruence. rewrite lookup_empty. discriminate.
  - exists ps, us, ns. split; [exact Hrun|]. rewrite Hp. reflexivity.
Defined.

(** A day with an empty bucket makes the chart divide by zero: nothing is
    saved, and the daily summary, which draws the chart first, raises the
    same error without sending its report. *)
Theorem empty_bucket_stops_chart_and_summary
    (C : config) (E : env) (w : world) (day s : str) (bucket : list str) :
  messages_data w !! day = Some [] ->
  messages_data w !! yesterday E = Some (s :: bucket) ->
  generate_mood_chart (messages_data w) (py "mood_summary.png") w
    = (Raised ZeroDivisionError, w) /\
  daily_mood_summary C E w = (Raised ZeroDivisionError, w).
Proof.
  intros Hday Hy.
  assert (Hc : generate_mood_chart (messages_data w) (py "mood_summary.png") w
               = (Raised ZeroDivisionError, w)).
  { unfold generate_mood_chart.
    rewrite (chart_series_empty_bucket (messages_data w) _ day).
    - reflexivity.
    - apply sorted_keys_elem. eauto.
    - now rewrite Hday. }
  split; [exact Hc|].
  unfold daily_mood_summary, bind, read_messages_data. now rewrite Hy, Hc.
Qed.

Lemma empty_bucket_stops_chart_and_summary_witness :
  daily_mood_summary sample_config sample_env gap_world
  = (Raised ZeroDivisionError, gap_world).
Proof.
  apply (empty_bucket_stops_chart_and_summary sample_config sample_env gap_world
           (py "2024-02-28") (py "POSITIVE") []); vm_compute; reflexivity.
Defined.

(** ** The daily summary *)

Lemma daily_mood_summary_without_data (C : config) (E : env) (w : world) :
  messages_data w !! yesterday E = None \/ messages_data w !! yesterday E = Some [] ->
  daily_mood_summary C E w =
  (Returned tt,
   with_call (SendMessage (admin_group_id C) (NoDataText (yesterday E)) [] None) w).
Proof.
  intros H. unfold daily_mood_summary, bind, read_messages_data.
  destruct H as [-> | ->]; reflexivity.
Qed.

(** When yesterday has no bucket, or an empty one, the summary sends the
    no-data message to the admin group and nothing else: no chart is
    drawn. *)
Theorem daily_mood_summary_no_data (C : config) (E : env) (w : world) :
  messages_data w !! yesterday E = None \/ messages_data w !! yesterday E = Some [] ->
  daily_mood_summary C E w =
    (Returned tt,
     with_call (SendMessage (admin_group_id C) (NoDataText (yesterday E)) [] None) w) /\
  new_calls w (snd (daily_mood_summary C E w))
    = [SendMessage (admin_group_id C) (NoDataText (yesterday E)) [] None].
Proof.
  intros H. rewrite (daily_mood_summary_without_data C E w H). split; [reflexivity|].
  unfold new_calls. cbn [snd with_call calls]. apply drop_app_length.
Qed.

Lemma daily_mood_summary_no_data_witness :
  new_calls empty_world (snd (daily_mood_summary sample_config sample_env empty_world))
  = [SendMessage (admin_group_id sample_config) (NoDataText (yesterday sample_env)) []
       None].
Proof.
  apply (daily_mood_summary_no_data sample_config sample_env empty_world).
  left. vm_compute. reflexivity.
Defined.

(** In a state where no bucket is empty the summary never raises: it
    sends exactly one message, to the admin group, after at most one
    chart, and leaves the table and the buckets as they were. *)
Theorem daily_mood_summary_returns (C : config) (E : env) (w : world) :
  buckets_nonempty (messages_data w) ->
  let w' := snd (daily_mood_summary C E w) in
  fst (daily_mood_summary C E w) = Returned tt /\
  db w' = db w /\ messages_data w' = messages_data w /\
  exists charts body file,
    new_calls w w' = charts ++ [SendMessage (admin_group_id C) body [] file] /\
    (charts = [] \/
     exists dates positive neutral negative,
       charts = [SaveFig (py "mood_summary.png") dates positive neutral negative]).
Proof.
  intros Hb w'. unfold w'.
  destruct (daily_mood_summary_state C E w) as [Hdb Hmd].
  destruct (messages_data w !! yesterday E) as [[|s bucket]|] eqn:Hy.
  - rewrite (daily_mood_summary_without_data C E w) by now right.
    cbn [fst snd with_call db messages_data]. repeat split.
    exists [], (NoDataText (yesterday E)), None. split; [|now left].
    unfold new_calls. cbn [calls]. apply drop_app_length.
  - destruct (generate_mood_chart_returns (messages_data w) (py "mood_summary.png") w Hb)
      as (ps & us & ns & Hc).
    split.
    { unfold daily_mood_summary, bind, read_messages_data. now rewrite Hy, Hc. }
    split; [exact Hdb|]. split; [exact Hmd|].
    exists [SaveFig (py "mood_summary.png") (sorted_keys (messages_data w)) ps us ns].
    eexists. exists (Some (py "mood_summary.png")). split; [|right; eauto].
    unfold daily_mood_summary, bind, read_messages_data. rewrite Hy, Hc.
    unfold new_calls, emit. cbn [snd with_call calls].
    rewrite <- app_assoc. apply drop_app_length.
  - rewrite (daily_mood_summary_without_data C E w) by now left.
    cbn [fst snd with_call db messages_data]. repeat split.
    exists [], (NoDataText (yesterday E)), None. split; [|now left].
    unfold new_calls. cbn [calls]. apply drop_app_length.
Qed.

Lemma daily_mood_summary_returns_witness :
  fst (daily_mood_summary sample_config sample_env yesterday_world) = Returned tt.
Proof.
  apply (daily_mood_summary_returns sample_config sample_env yesterday_world).
  intros day. unfold yesterday_world. cbn [messages_data].
  destruct (decide (day = yesterday sample_env)) as [->|Hd].
  - rewrite lookup_insert_eq. discriminate.
  - rewrite lookup_insert_ne by congruence. rewrite lookup_empty. discriminate.
Defined.

(** ** The invariants, for the three handlers *)

(** Every handler keeps the two invariants of the state: the keys of the
    table have the shape of the identifiers the store draws, and no bucket
    is empty.  They hold of the empty state the program starts in. *)
Theorem handlers_keep_state_healthy
    (X : externals) (C : config) (E : env) (w : world) :
  healthy w ->
  (forall ev, healthy (snd (mood_analyzer X C E ev w))) /\
  (forall event, healthy (snd (handle_feedback E event w))) /\
  healthy (snd (daily_mood_summary C E w)).
Proof.
  intros Hw. split; [intros ev; now apply mood_analyzer_healthy|].
  split; [intros event; now apply handle_feedback_healthy|].
  destruct Hw as [Hi Hb]. destruct (daily_mood_summary_state C E w) as [Hdb Hmd].
  split; [now rewrite Hdb|now rewrite Hmd].
Qed.

Lemma handlers_keep_state_healthy_witness :
  healthy (snd (daily_mood_summary sample_config sample_env empty_world)).
Proof.
  apply (handlers_keep_state_healthy sample_externals sample_config sample_env
           empty_world).
  exact empty_world_healthy.
Defined.

(** ** Normalisation: the steps one by one *)

(** The three steps built on a single character class delete exactly the
    characters of the class and keep the others, in their order. *)
Theorem class_steps_are_filters (X : externals) (text : str) :
  strip_latin text = List.filter (fun c => negb (Re.latin c)) text /\
  strip_foreign text = List.filter (fun c => Re.arabic_block c || isspace c) text /\
  strip_digits X text = List.filter (fun c => negb (uni_decimal X c)) text.
Proof.
  split; [apply sub_one|]. split; [|apply sub_many].
  unfold strip_foreign, foreign_re. rewrite sub_one. apply filter_ext.
  intros c. unfold Re.not_arabic_nor_space. apply negb_involutive.
Qed.

(** *** White space *)

Lemma sub_spaces_squeeze (s : str) :
  Re.sub_from spaces_re (py " ") O s = squeeze false s /\
  Re.sub_from spaces_re (py " ") (span isspace s) s = squeeze true s.
Proof.
  induction s as [|c s [IH1 IH2]]; [now split|].
  assert (H0 : Re.sub_from spaces_re (py " ") O (c :: s) = squeeze false (c :: s)).
  { cbn [Re.sub_from spaces_re Re.match_regex Re.match_branch].
    rewrite (many_span isspace _ (c :: s)) by reflexivity.
    cbn [span squeeze]. destruct (isspace c).
    - now rewrite IH2.
    - now rewrite IH1. }
  split; [exact H0|].
  cbn [span]. destruct (isspace c) eqn:Hc.
  - cbn [Re.sub_from squeeze]. now rewrite Hc.
  - rewrite H0. cbn [squeeze]. now rewrite Hc.
Qed.

Lemma squeeze_true_head (s : str) :
  match squeeze true s with
  | c :: _ => isspace c = false
  | [] => True
  end.
Proof.
  induction s as [|c s IH]; [exact I|].
  cbn [squeeze]. destruct (isspace c) eqn:Hc; [exact IH|exact Hc].
Qed.

Lemma squeeze_letters (b : bool) (s : str) :
  forallb (fun c => Re.arabic_block c || isspace c) s = true ->
  forallb letter_or_space (squeeze b s) = true.
Proof.
  revert b. induction s as [|c s IH]; intros b; [reflexivity|].
  cbn [forallb squeeze]. intros [Hc Hs]%andb_prop.
  destruct (isspace c) eqn:Hsp.
  - destruct b; cbn [forallb]; now rewrite ?IH.
  - cbn [forallb]. rewrite (IH false Hs), andb_true_r.
    unfold letter_or_space. rewrite orb_false_r in Hc. now rewrite Hc.
Qed.

Lemma space_isspace : isspace 32 = true.
Proof. reflexivity. Qed.

Lemma nonspace_not_32 (c : Z) : isspace c = false -> (c =? 32) = false.
Proof.
  intros H. destruct (Z.eqb_spec c 32) as [->|]; [|reflexivity].
  rewrite space_isspace in H. discriminate.
Qed.

Lemma no_double_space_cons (a b : Z) (t : str) :
  no_double_space (a :: b :: t)
  = negb ((a =? 32) && (b =? 32)) && no_double_space (b :: t).
Proof. reflexivity. Qed.

Lemma squeeze_no_double (b : bool) (s : str) : no_double_space (squeeze b s) = true.
Proof.
  revert b. induction s as [|c s IH]; intros b; [reflexivity|].
  cbn [squeeze]. destruct (isspace c) eqn:Hc.
  - destruct b; [apply IH|].
    pose proof (squeeze_true_head s) as Hh. pose proof (IH true) as Hn.
    destruct (squeeze true s) as [|d t]; [reflexivity|].
    rewrite no_double_space_cons, (nonspace_not_32 d Hh), andb_false_r. exact Hn.
  - pose proof (IH false) as Hn.
    destruct (squeeze false s) as [|d t]; [reflexivity|].
    rewrite no_double_space_cons, (nonspace_not_32 c Hc). exact Hn.
Qed.

Lemma no_double_space_tail (c : Z) (s : str) :
  no_double_space (c :: s) = true -> no_double_space s = true.
Proof.
  destruct s as [|d t]; [reflexivity|]. rewrite no_double_space_cons.
  now intros [_ H]%andb_prop.
Qed.

Lemma lstrip_keeps (s : str) :
  forallb letter_or_space s = true -> no_double_space s = true ->
  forallb letter_or_space (lstrip s) = true /\
  no_double_space (lstrip s) = true /\
  no_leading_space (lstrip s) = true.
Proof.
  induction s as [|c s IH]; [now repeat split|].
  intros Hl Hn. cbn [lstrip]. destruct (isspace c) eqn:Hc.
  - apply IH; [now apply andb_prop in Hl as [_ ?]|now apply no_double_space_tail in Hn].
  - repeat split; try assumption. cbn [no_leading_space].
    now rewrite (nonspace_not_32 c Hc).
Qed.

Lemma rstrip_snoc (l : str) (c : Z) :
  rstrip (l ++ [c]) = if isspace c then rstrip l else l ++ [c].
Proof.
  unfold rstrip. rewrite rev_app_distr. cbn [rev app lstrip].
  destruct (isspace c); [reflexivity|].
  cbn [rev]. now rewrite rev_involutive.
Qed.

Lemma no_double_space_init (l : str) (c : Z) :
  no_double_space (l ++ [c]) = true -> no_double_space l = true.
Proof.
  induction l as [|a l IH]; [reflexivity|].
  destruct l as [|b l]; [reflexivity|].
  cbn [app]. rewrite !no_double_space_cons. intros [H1 H2]%andb_prop.
  rewrite H1. apply IH. exact H2.
Qed.

Lemma spaces_single_snoc (l : str) (c : Z) :
  no_double_space (l ++ [c]) = true -> (c =? 32) = false ->
  spaces_single (l ++ [c]) = true.
Proof.
  intros Hn Hc. induction l as [|a l IH].
  - cbn. now rewrite Hc.
  - cbn [app spaces_single]. rewrite IH by now apply no_double_space_tail in Hn.
    rewrite andb_true_r. destruct (a =? 32) eqn:Ha; [|reflexivity].
    destruct l as [|b l]; cbn [app] in *.
    + now rewrite Hc.
    + rewrite no_double_space_cons in Hn. apply andb_prop in Hn as [Hn _].
      rewrite Ha in Hn. cbn [andb] in Hn. destruct (b =? 32); [discriminate|reflexivity].
Qed.

Lemma no_leading_space_init (l : str) (c : Z) :
  no_leading_space (l ++ [c]) = true -> no_leading_space l = true.
Proof. destruct l; [reflexivity|exact (fun H => H)]. Qed.

Lemma rstrip_tidy (r : str) :
  forallb letter_or_space r = true -> no_double_space r = true ->
  no_leading_space r = true -> tidy (rstrip r) = true.
Proof.
  induction r as [|c l IH] using rev_ind; [reflexivity|].
  intros Hl Hn Hh. rewrite rstrip_snoc. destruct (isspace c) eqn:Hc.
  - apply IH.
    + rewrite forallb_app in Hl. now apply andb_prop in Hl as [? _].
    + now apply no_double_space_init in Hn.
    + now apply no_leading_space_init in Hh.
  - unfold tidy. rewrite Hl, (spaces_single_snoc l c Hn (nonspace_not_32 c Hc)).
    cbn [andb]. destruct l; exact Hh.
Qed.

Lemma collapse_spaces_tidies (s : str) :
  forallb (fun c => Re.arabic_block c || isspace c) s = true ->
  tidy (collapse_spaces s) = true.
Proof.
  intros Hs. unfold collapse_spaces, Re.sub, strip.
  rewrite (proj1 (sub_spaces_squeeze s)).
  destruct (lstrip_keeps (squeeze false s)) as (H1 & H2 & H3);
    [now apply squeeze_letters|apply squeeze_no_double|].
  now apply rstrip_tidy.
Qed.

(** Whatever the input and whatever the emoji library returns, the text
    handed to the Hazm normaliser consists of characters of the Arabic
    block and single spaces, with no space at either end; the function is
    what the remaining two statements make of it. *)
Theorem text_for_hazm_is_tidy (X : externals) (text : str) :
  tidy (before_hazm X text) = true /\
  preprocess_text X text = strip_digits X (hazm_normalize X (before_hazm X text)).
Proof.
  split; [|reflexivity].
  unfold before_hazm. apply collapse_spaces_tidies, strip_foreign_script.
Qed.

Lemma before_hazm_fixed (X : externals) (r : str) :
  tidy r = true -> replace_emoji X r = r -> before_hazm X r = r.
Proof.
  intros Ht He. unfold before_hazm.
  pose proof Ht as [[Hl _]%andb_prop _]%andb_prop.
  pose proof (forallb_Forall_true _ _ Hl) as HF.
  unfold strip_urls. rewrite (sub_no_match url_re [] _ r url_re_no_match HF).
  unfold strip_mentions. rewrite (sub_no_match _ [] _ r (mention_re_no_match X) HF).
  unfold strip_hashtags. rewrite (sub_no_match _ [] _ r (hashtag_re_no_match X) HF).
  rewrite He.
  unfold strip_latin, latin_re. rewrite sub_one, filter_all_kept.
  2:{ apply (forallb_impl_bool letter_or_space); [|assumption].
      intros c Hc. now rewrite letter_or_space_not_latin. }
  unfold strip_foreign, foreign_re. rewrite sub_one, filter_all_kept.
  2:{ apply (forallb_impl_bool letter_or_space); [|assumption].
      intros c Hc. now rewrite letter_or_space_not_foreign. }
  now apply collapse_spaces_tidy.
Qed.

(** The statements before the Hazm normaliser are idempotent as a whole,
    provided the emoji library leaves alone a text that holds only
    characters of the Arabic block and single spaces. *)
Theorem before_hazm_idempotent (X : externals) (text : str) :
  (forall r : str, tidy r = true -> replace_emoji X r = r) ->
  before_hazm X (before_hazm X text) = before_hazm X text.
Proof.
  intros He. pose proof (collapse_spaces_tidies
    (strip_foreign (strip_latin (replace_emoji X
       (strip_hashtags X (strip_mentions X (strip_urls text))))))
    (strip_foreign_script _)) as Ht.
  fold (before_hazm X text) in Ht.
  apply before_hazm_fixed; [exact Ht|now apply He].
Qed.

Lemma sample_emoji_keeps_tidy (r : str) :
  tidy r = true -> replace_emoji sample_externals r = r.
Proof.
  intros [[Hl _]%andb_prop _]%andb_prop. cbn [replace_emoji sample_externals].
  apply filter_all_kept. revert Hl. apply forallb_impl_bool.
  intros c [H| ->]%letter_or_space_cases; [|reflexivity]. zcases.
Qed.

Lemma before_hazm_idempotent_witness :
  before_hazm sample_externals (before_hazm sample_externals scenario_text)
  = before_hazm sample_externals scenario_text.
Proof.
  apply (before_hazm_idempotent sample_externals scenario_text).
  exact sample_emoji_keeps_tidy.
Defined.

(** ** Regular expressions: nothing left to match *)

Lemma sub_from_skip (r : Re.regex) (repl : str) (k : nat) (s : str) :
  Re.sub_from r repl k s = Re.sub_from r repl O (drop k s).
Proof.
  revert k. induction s as [|c s IH]; intros [|k]; try reflexivity.
  cbn [Re.sub_from drop]. apply IH.
Qed.

Section NothingLeft.

Variable r : Re.regex.
Variable D : Z -> bool.

Hypothesis no_hit_nil : ~ hit r [].
Hypothesis after_match :
  forall (s : str) k, Re.match_regex r s = Some (S k) -> starts_in D (drop (S k) s).
Hypothesis local :
  forall p u rest : str, p <> [] -> starts_in D rest -> hit r (p ++ rest) -> hit r (p ++ u).

Lemma sub_cons_cases (d : Z) (s : str) :
  (exists k, Re.match_regex r (d :: s) = Some (S k) /\
             Re.sub r [] (d :: s) = Re.sub r [] (drop (S k) (d :: s))) \/
  (~ hit r (d :: s) /\ Re.sub r [] (d :: s) = d :: Re.sub r [] s).
Proof.
  unfold Re.sub. cbn [Re.sub_from].
  destruct (Re.match_regex r (d :: s)) as [[|k]|] eqn:Hm.
  - right. split; [|reflexivity]. intros [k Hk]. rewrite Hm in Hk. discriminate.
  - left. exists k. split; [reflexivity|]. cbn [app drop]. apply sub_from_skip.
  - right. split; [|reflexivity]. intros [k Hk]. rewrite Hm in Hk. discriminate.
Qed.

Lemma sub_starts_in (n : nat) :
  forall s : str, (length s <= n)%nat -> starts_in D s -> starts_in D (Re.sub r [] s).
Proof.
  induction n as [|n IH]; intros [|d s] Hlen Hs; try exact I; cbn [length] in Hlen;
    [lia|].
  destruct (sub_cons_cases d s) as [(k & Hm & ->)|[_ ->]]; [|exact Hs].
  apply IH; [|exact (after_match _ _ Hm)].
  rewrite length_drop. cbn [length]. lia.
Qed.

Lemma sub_no_new_hit (n : nat) :
  forall s : str, (length s <= n)%nat ->
  forall p : str, p <> [] -> hit r (p ++ Re.sub r [] s) -> hit r (p ++ s).
Proof.
  induction n as [|n IH]; intros [|d s] Hlen p Hp Hh; try exact Hh;
    cbn [length] in Hlen; [lia|].
  destruct (sub_cons_cases d s) as [(k & Hm & He)|[_ He]]; rewrite He in Hh.
  - apply (local p (d :: s) (Re.sub r [] (drop (S k) (d :: s))) Hp); [|exact Hh].
    apply (sub_starts_in (length (drop (S k) (d :: s)))); [lia|].
    exact (after_match _ _ Hm).
  - replace (p ++ d :: s) with ((p ++ [d]) ++ s) by now rewrite <- app_assoc.
    apply (IH s); [lia|now destruct p|].
    now rewrite <- app_assoc.
Qed.

Lemma sub_leaves_no_hit (n : nat) :
  forall s : str, (length s <= n)%nat ->
  forall t : str, t `suffix_of` Re.sub r [] s -> ~ hit r t.
Proof.
  induction n as [|n IH]; intros [|d s] Hlen t Ht; cbn [length] in Hlen; try lia.
  - apply suffix_nil_inv in Ht. now subst t.
  - apply suffix_nil_inv in Ht. now subst t.
  - destruct (sub_cons_cases d s) as [(k & Hm & He)|[Hn He]]; rewrite He in Ht.
    + apply (IH (drop (S k) (d :: s))); [|exact Ht].
      rewrite length_drop. cbn [length]. lia.
    + destruct Ht as [[|d' pre] Hpre].
      * cbn [app] in Hpre. subst t. intros Hh. apply Hn.
        apply (sub_no_new_hit (length s) s (le_n _) [d]); [discriminate|exact Hh].
      * cbn [app] in Hpre. injection Hpre as -> Hpre.
        apply (IH s); [lia|]. now exists pre.
Qed.

Lemma sub_without_hit (s : str) :
  (forall t : str, t `suffix_of` s -> ~ hit r t) -> Re.sub r [] s = s.
Proof.
  unfold Re.sub. induction s as [|c s IH]; intros Hs; [reflexivity|].
  cbn [Re.sub_from].
  destruct (Re.match_regex r (c :: s)) as [[|k]|] eqn:Hm.
  - rewrite IH; [reflexivity|]. intros t Ht. apply Hs. now apply suffix_cons_r.
  - exfalso. apply (Hs (c :: s)); [reflexivity|]. now exists k.
  - rewrite IH; [reflexivity|]. intros t Ht. apply Hs. now apply suffix_cons_r.
Qed.

Lemma sub_idempotent (s : str) : Re.sub r [] (Re.sub r [] s) = Re.sub r [] s.
Proof.
  apply sub_without_hit. intros t Ht.
  exact (sub_leaves_no_hit (length s) s (le_n _) t Ht).
Qed.

End NothingLeft.

(** *** Patterns made of a literal word and a class repeated *)

Lemma match_lits_many (l : list ascii) (p : Z -> bool) (s : str) :
  Re.match_branch (map (fun a => Re.One (Re.lit a)) l ++ [Re.Many p]) s =
  if startswith (map ch l) s
  then match span p (drop (length l) s) with
       | O => None
       | S n => Some (length l + S n)%nat
       end
  else None.
Proof.
  revert s. induction l as [|a l IH]; intros s.
  - cbn [map app length drop startswith Re.match_branch].
    rewrite (many_span p _ s) by reflexivity. rewrite drop_0. now destruct (span p s).
  - destruct s as [|c s]; [reflexivity|].
    cbn [map app length drop startswith Re.match_branch]. unfold Re.lit at 1.
    destruct (ch a =? c); [|reflexivity]. cbn [andb]. rewrite IH.
    destruct (startswith (map ch l) s); [|reflexivity].
    now destruct (span p (drop (length l) s)).
Qed.

Lemma drop_span (p : Z -> bool) (s : str) :
  starts_in (fun c => negb (p c)) (drop (span p s) s).
Proof.
  induction s as [|c s IH]; [exact I|].
  cbn [span]. destruct (p c) eqn:Hc; [exact IH|].
  cbn [drop starts_in]. now rewrite Hc.
Qed.

Lemma after_lits_many (l : list ascii) (p : Z -> bool) (s : str) (n : nat) :
  Re.match_branch (map (fun a => Re.One (Re.lit a)) l ++ [Re.Many p]) s = Some n ->
  starts_in (fun c => negb (p c)) (drop n s).
Proof.
  rewrite match_lits_many. destruct (startswith (map ch l) s); [|discriminate].
  destruct (span p (drop (length l) s)) as [|k] eqn:Hk; [discriminate|].
  intros [= <-]. rewrite <- drop_drop, <- Hk. apply drop_span.
Qed.

Lemma space_not_in_link (y : Z) :
  isspace y = true ->
  (y =? 104) = false /\ (y =? 116) = false /\ (y =? 112) = false /\
  (y =? 119) = false /\ (y =? 46) = false.
Proof. unfold isspace. zcases. Qed.

Lemma url_hit_iff (s : str) : hit url_re s <-> url_hitb s = true.
Proof.
  unfold hit, url_re, Re.lits. cbn [Re.match_regex]. rewrite !match_lits_many.
  cbn [list_ascii_of_string map length].
  change (ch "h") with 104. change (ch "t") with 116. change (ch "p") with 112.
  change (ch "w") with 119. change (ch ".") with 46.
  destruct s as [|a [|b [|c [|d [|e t]]]]]; cbn [startswith drop span url_hitb].
  - split; [intros [k Hk]|intros Hk]; discriminate.
  - split; [intros [k Hk]|intros Hk]; [|discriminate].
    destruct (104 =? a), (119 =? a); discriminate.
  - split; [intros [k Hk]|intros Hk]; [|discriminate].
    destruct (104 =? a), (119 =? a), (116 =? b), (119 =? b); discriminate.
  - split; [intros [k Hk]|intros Hk]; [|discriminate].
    destruct (104 =? a), (119 =? a), (116 =? b), (119 =? b), (116 =? c), (119 =? c);
      discriminate.
  - split; [intros [k Hk]|intros Hk]; [|discriminate].
    destruct (104 =? a), (119 =? a), (116 =? b), (119 =? b), (116 =? c), (119 =? c),
      (112 =? d), (46 =? d); discriminate.
  - rewrite (Z.eqb_sym a 104), (Z.eqb_sym b 116), (Z.eqb_sym c 116), (Z.eqb_sym d 112),
      (Z.eqb_sym a 119), (Z.eqb_sym b 119), (Z.eqb_sym c 119), (Z.eqb_sym d 46).
    unfold Re.nonspace.
    destruct (104 =? a), (116 =? b), (116 =? c), (112 =? d), (119 =? a), (119 =? b),
      (119 =? c), (46 =? d), (isspace e); cbn [andb orb negb];
      (split; [intros [k Hk]; first [reflexivity|discriminate Hk]
              |intros Hk; first [discriminate Hk|eexists; reflexivity]]).
Qed.

Lemma url_hitb_take (s : str) : url_hitb s = url_hitb (take 5 s).
Proof. destruct s as [|a [|b [|c [|d [|e t]]]]]; reflexivity. Qed.

Lemma url_hitb_nonspace (s : str) :
  url_hitb s = true -> (5 <= length s)%nat /\ forallb Re.nonspace (take 5 s) = true.
Proof.
  destruct s as [|a [|b [|c [|d [|e t]]]]]; try discriminate.
  cbn [url_hitb length take forallb]. intros [Hq He]%andb_prop.
  split; [lia|]. unfold Re.nonspace at 5. rewrite He, !andb_true_r.
  apply orb_prop in Hq as [Hq|Hq];
    apply andb_prop in Hq as [[[->%Z.eqb_eq ->%Z.eqb_eq]%andb_prop ->%Z.eqb_eq]%andb_prop
                               ->%Z.eqb_eq];
    reflexivity.
Qed.

Lemma url_after_match (s : str) (k : nat) :
  Re.match_regex url_re s = Some (S k) -> starts_in isspace (drop (S k) s).
Proof.
  assert (Hconv : forall l : str, starts_in (fun c => negb (Re.nonspace c)) l ->
                                  starts_in isspace l).
  { intros [|y l]; [trivial|]. cbn [starts_in]. unfold Re.nonspace.
    now rewrite negb_involutive. }
  unfold url_re, Re.lits. cbn [Re.match_regex].
  destruct (Re.match_branch _ s) as [n|] eqn:H1.
  - intros [= ->]. exact (Hconv _ (after_lits_many _ _ _ _ H1)).
  - destruct (Re.match_branch _ s) as [n|] eqn:H2 in |- *; [|discriminate].
    intros [= ->]. exact (Hconv _ (after_lits_many _ _ _ _ H2)).
Qed.

Lemma url_local (p u rest : str) :
  p <> [] -> starts_in isspace rest -> hit url_re (p ++ rest) -> hit url_re (p ++ u).
Proof.
  intros Hp Hrest. rewrite !url_hit_iff. intros Hh.
  destruct (url_hitb_nonspace _ Hh) as [Hlen Hns].
  rewrite url_hitb_take in Hh. rewrite url_hitb_take.
  destruct (le_lt_dec 5 (length p)) as [Hge|Hlt].
  - rewrite take_app_le in Hh by exact Hge. now rewrite take_app_le by exact Hge.
  - exfalso. destruct rest as [|y t].
    + rewrite app_nil_r in Hlen. lia.
    + rewrite take_app_ge in Hns by lia. rewrite forallb_app in Hns.
      apply andb_prop in Hns as [_ Hns].
      destruct (5 - length p)%nat as [|m] eqn:Hm; [lia|].
      cbn [take forallb] in Hns. apply andb_prop in Hns as [Hy _].
      cbn [starts_in] in Hrest. unfold Re.nonspace in Hy. rewrite Hrest in Hy.
      discriminate.
Qed.

Lemma strip_urls_no_hit (text t : str) :
  t `suffix_of` strip_urls text -> ~ hit url_re t.
Proof.
  apply (sub_leaves_no_hit url_re isspace) with (n := length text); [| | |lia].
  - intros [k Hk]. discriminate.
  - exact url_after_match.
  - exact url_local.
Qed.

(** After the first statement no link is left: the result has no [http]
    and no [www.] followed by a character that is not white space, and
    running the statement again changes nothing. *)
Theorem strip_urls_leaves_no_link (text : str) :
  (forall (pre post : str) (c : Z),
     isspace c = false ->
     strip_urls text <> pre ++ py "http" ++ c :: post /\
     strip_urls text <> pre ++ py "www." ++ c :: post) /\
  strip_urls (strip_urls text) = strip_urls text.
Proof.
  split.
  - intros pre post c Hc. split; intros Heq.
    + apply (strip_urls_no_hit text (py "http" ++ c :: post)); [now exists pre|].
      apply url_hit_iff. cbn. now rewrite Hc.
    + apply (strip_urls_no_hit text (py "www." ++ c :: post)); [now exists pre|].
      apply url_hit_iff. cbn. now rewrite Hc.
  - apply (sub_idempotent url_re isspace).
    + intros [k Hk]. discriminate.
    + exact url_after_match.
    + exact url_local.
Qed.

Lemma strip_urls_leaves_no_link_witness :
  strip_urls scenario_text <> salam ++ py " " ++ py "http" ++ 58 :: py "//x.com".
Proof.
  apply (proj1 (strip_urls_leaves_no_link scenario_text) (salam ++ py " ") (py "//x.com")
           58 eq_refl).
Defined.

(** *** Mentions and hashtags *)

Section Tags.

Variable X : externals.
Variable sign : ascii.

Lemma tag_hit_iff (s : str) : hit (tag_re X sign) s <-> tag_hitb X (ch sign) s = true.
Proof.
  unfold hit, tag_re. cbn [Re.match_regex].
  change [Re.One (Re.lit sign); Re.Many (uni_word X)]
    with (map (fun a => Re.One (Re.lit a)) [sign] ++ [Re.Many (uni_word X)]).
  rewrite match_lits_many. cbn [map length].
  destruct s as [|a [|b t]]; cbn [startswith drop span tag_hitb].
  - split; [intros [k Hk]|intros Hk]; discriminate.
  - split; [intros [k Hk]|intros Hk]; [|discriminate].
    destruct (ch sign =? a); discriminate.
  - rewrite (Z.eqb_sym a (ch sign)).
    destruct (ch sign =? a), (uni_word X b); cbn [andb];
      (split; [intros [k Hk]; first [reflexivity|discriminate Hk]
              |intros Hk; first [discriminate Hk|eexists; reflexivity]]).
Qed.

Lemma tag_after_match (s : str) (k : nat) :
  Re.match_regex (tag_re X sign) s = Some (S k) ->
  starts_in (fun c => negb (uni_word X c)) (drop (S k) s).
Proof.
  unfold tag_re. cbn [Re.match_regex].
  change [Re.One (Re.lit sign); Re.Many (uni_word X)]
    with (map (fun a => Re.One (Re.lit a)) [sign] ++ [Re.Many (uni_word X)]).
  destruct (Re.match_branch _ s) as [n|] eqn:H1; [|discriminate].
  intros [= ->]. exact (after_lits_many _ _ _ _ H1).
Qed.

Lemma tag_local (p u rest : str) :
  p <> [] -> starts_in (fun c => negb (uni_word X c)) rest ->
  hit (tag_re X sign) (p ++ rest) -> hit (tag_re X sign) (p ++ u).
Proof.
  intros Hp Hrest. rewrite !tag_hit_iff.
  destruct p as [|a [|b p]]; [contradiction| |exact (fun H => H)].
  destruct rest as [|y t]; [discriminate|].
  cbn [app tag_hitb starts_in] in *. apply negb_true_iff in Hrest. rewrite Hrest.
  now rewrite andb_false_r.
Qed.

Lemma tag_no_hit (text t : str) :
  t `suffix_of` Re.sub (tag_re X sign) [] text -> ~ hit (tag_re X sign) t.
Proof.
  apply (sub_leaves_no_hit (tag_re X sign) (fun c => negb (uni_word X c))) with (n := length text);
    [| | |lia].
  - intros [k Hk]. discriminate.
  - exact tag_after_match.
  - exact tag_local.
Qed.

Lemma tag_nothing_left (text pre post : str) (c : Z) :
  uni_word X c = true -> Re.sub (tag_re X sign) [] text <> pre ++ ch sign :: c :: post.
Proof.
  intros Hc Heq. apply (tag_no_hit text (ch sign :: c :: post)); [now exists pre|].
  apply tag_hit_iff. cbn [tag_hitb]. now rewrite Z.eqb_refl, Hc.
Qed.

Lemma tag_idempotent (text : str) :
  Re.sub (tag_re X sign) [] (Re.sub (tag_re X sign) [] text) = Re.sub (tag_re X sign) [] text.
Proof.
  apply (sub_idempotent (tag_re X sign) (fun c => negb (uni_word X c))).
  - intros [k Hk]. discriminate.
  - exact tag_after_match.
  - exact tag_local.
Qed.

End Tags.

(** After the second and third statements no mention and no hashtag is
    left: the result of each has no [@], respectively [#], followed by a
    word character, and running the statement again changes nothing. *)
Theorem strip_tags_leaves_no_tag (X : externals) (text : str) :
  (forall (pre post : str) (c : Z),
     uni_word X c = true ->
     strip_mentions X text <> pre ++ 64 :: c :: post /\
     strip_hashtags X text <> pre ++ 35 :: c :: post) /\
  strip_mentions X (strip_mentions X text) = strip_mentions X text /\
  strip_hashtags X (strip_hashtags X text) = strip_hashtags X text.
Proof.
  split; [|split].
  - intros pre post c Hc. split.
    + exact (tag_nothing_left X "@" text pre post c Hc).
    + exact (tag_nothing_left X "#" text pre post c Hc).
  - exact (tag_idempotent X "@" text).
  - exact (tag_idempotent X "#" text).
Qed.

Lemma strip_tags_leaves_no_tag_witness :
  strip_mentions sample_externals scenario_text
  <> salam ++ py " http://x.com " ++ 64 :: 106 :: py "oe #tag " ++ [128522] ++ py "123".
Proof.
  apply (proj1 (strip_tags_leaves_no_tag sample_externals scenario_text)
           (salam ++ py " http://x.com ") (py "oe #tag " ++ [128522] ++ py "123") 106
           eq_refl).
Defined.

(** ** The normalisation as a whole *)





